(** * ArtworkTable: the selection state of the paginated artwork table

    A shallow embedding of [src/ArtworkTable.tsx].  The React component keeps
    nine pieces of state; its event handlers read the values of the render
    they were created in and queue new values with the [set...] functions.
    Here the component state is a record, a handler is a function from the
    rendered state to the next state together with the effects it performed
    ([alert], [console.error], the request sent, hiding the overlay), and the
    queued [set...] calls are sequenced on the rendered state in source order.

    JavaScript numbers are modelled as [Z]: every number the component
    handles is an integer (ids, page numbers, counts, the result of
    [parseInt]).  [parseInt] rounds the integer it reads to the nearest
    double; an input so long that it reads as Infinity (more than 308
    digits) is outside the model, as are totals that are not integers.  The
    NaN that [parseInt] may return is the [None] of [option Z].  Strings are
    sequences of UTF-16 code units. *)

From stdpp Require Import gmap strings list.
From Stdlib Require Import ZArith Ascii String.

Open Scope Z_scope.

(* set_solver clears hypotheses by name; the notice it prints is noise. *)
#[local] Set Warnings "-clear-no-such-hyp".

(** ** Strings and parseInt

    A JavaScript string is its sequence of UTF-16 code units.  [parseInt] is
    the built-in the submit handler calls, as ECMAScript defines it for a
    string argument and no radix; it comes with the tests the handler applies
    to its result. *)

Module JS.

Definition str : Type := list N.

(** The code units of a string of one-byte characters (for literals). *)
Definition units (s : string) : str := N_of_ascii <$> list_ascii_of_string s.

(** White space and line terminators, which [parseInt] skips: TAB, LF, VT,
    FF, CR, SPACE, NBSP, U+1680, U+2000 to U+200A, U+2028, U+2029, U+202F,
    U+205F, U+3000 and U+FEFF. *)
Definition isWhiteSpace (c : N) : bool :=
  let n := Z.of_N c in
  ((9 <=? n) && (n <=? 13))
  || (n =? 32) || (n =? 160) || (n =? 5760)
  || ((8192 <=? n) && (n <=? 8202))
  || (n =? 8232) || (n =? 8233) || (n =? 8239) || (n =? 8287)
  || (n =? 12288) || (n =? 65279).

Fixpoint trimStart (s : str) : str :=
  match s with
  | c :: s' => if isWhiteSpace c then trimStart s' else s
  | [] => s
  end.

(** The value of [c] as a digit of the given radix, if it is one. *)
Definition digitValue (radix : Z) (c : N) : option Z :=
  let n := Z.of_N c in
  let v :=
    if (48 <=? n) && (n <=? 57) then Some (n - 48)
    else if (97 <=? n) && (n <=? 122) then Some (n - 87)
    else if (65 <=? n) && (n <=? 90) then Some (n - 55)
    else None in
  match v with
  | Some d => if d <? radix then Some d else None
  | None => None
  end.

(** The longest prefix of digits, read as a number; [None] when the prefix
    is empty. *)
Fixpoint parseDigits (radix : Z) (s : str) (acc : option Z) : option Z :=
  match s with
  | [] => acc
  | c :: s' =>
      match digitValue radix c with
      | Some d =>
          parseDigits radix s'
            (Some (match acc with Some a => a * radix + d | None => d end))
      | None => acc
      end
  end.

(** An optional sign: [-] (45) negates, [+] (43) is dropped. *)
Definition stripSign (s : str) : Z * str :=
  match s with
  | c :: r =>
      if (c =? 45)%N then (-1, r)
      else if (c =? 43)%N then (1, r)
      else (1, s)
  | [] => (1, s)
  end.

(** An optional [0x] or [0X] prefix (48, then 120 or 88) selects radix 16. *)
Definition stripHexPrefix (s : str) : Z * str :=
  match s with
  | c0 :: c1 :: r =>
      if (c0 =? 48)%N && ((c1 =? 120)%N || (c1 =? 88)%N)
      then (16, r) else (10, s)
  | _ => (10, s)
  end.

(** The Number nearest to a non-negative integer: the integer itself up to
    53 bits, and beyond that its 53 leading bits rounded to nearest, ties to
    even. *)
Definition toNumber (n : Z) : Z :=
  let bits := Z.log2 n + 1 in
  if bits <=? 53 then n
  else
    let e := bits - 53 in
    let q := Z.shiftr n e in
    let r := n - Z.shiftl q e in
    let half := Z.shiftl 1 (e - 1) in
    let q' := if (half <? r) || ((r =? half) && Z.odd q) then q + 1 else q in
    Z.shiftl q' e.

(** [parseInt(input)] without a radix argument: leading white space, an
    optional sign, an optional [0x] or [0X] prefix, then digits, whose value
    becomes a Number.  [None] is NaN. *)
Definition parseInt (input : str) : option Z :=
  let '(sign, s) := stripSign (trimStart input) in
  let '(radix, s) := stripHexPrefix s in
  match parseDigits radix s None with
  | Some n => Some (sign * toNumber n)
  | None => None
  end.

Definition isNaN (x : option Z) : bool :=
  match x with None => true | Some _ => false end.

(** [!x] on a number: NaN and zero are falsy. *)
Definition not (x : option Z) : bool :=
  match x with None => true | Some n => n =? 0 end.

(** [x <= y] and [x > y]; a comparison with NaN is false. *)
Definition le (x : option Z) (y : Z) : bool :=
  match x with None => false | Some n => n <=? y end.

Definition gt (x : option Z) (y : Z) : bool :=
  match x with None => false | Some n => y <? n end.

End JS.

(** String literals stand for their code units. *)
Coercion JS.units : string >-> JS.str.
Bind Scope string_scope with JS.str.

(** ** Data *)

(** Modelled from the spec: the declaration of [Artwork] in [@/types/artwork]
    is not part of the sources at hand; section 6 of the specification lists
    its fields: a required integer [id], four optional strings and two
    optional integers. *)
Record Artwork := mkArtwork {
  id : Z;
  title : option string;
  place_of_origin : option string;
  artist_display : option string;
  inscriptions : option string;
  date_start : option Z;
  date_end : option Z
}.

Definition ROWS_PER_PAGE : Z := 12.

Inductive SelectionMode := manual | custom.

Definition isCustom (m : SelectionMode) : bool :=
  match m with custom => true | manual => false end.

(** The [useState] cells of the component, in declaration order. *)
Record State := mkState {
  artworks : list Artwork;
  loading : bool;
  totalRecords : Z;
  currentPage : Z;
  selectionMode : SelectionMode;
  customSelectTarget : Z;
  selectedRowIds : gset Z;
  deselectedRowIds : gset Z;
  customSelectCount : JS.str
}.

(** The state of the first render. *)
Definition initialState : State :=
  {| artworks := []; loading := false; totalRecords := 0; currentPage := 1;
     selectionMode := manual; customSelectTarget := 0;
     selectedRowIds := ∅; deselectedRowIds := ∅;
     customSelectCount := [] |}.

(** ** Effects and queued updates *)

Inductive AlertMessage :=
| EnterValidPositive
| CannotSelect (count total : Z).

Inductive Effect :=
| FetchRequest (page limit : Z)
| ConsoleError
| Alert (msg : AlertMessage)
| HideOverlay.

(** A command updates the pending state and records what it did. *)
Definition Cmd : Type := State → State * list Effect.

Definition skip : Cmd := λ s, (s, []).

Definition andThen (c1 c2 : Cmd) : Cmd :=
  λ s, let '(s1, e1) := c1 s in
       let '(s2, e2) := c2 s1 in
       (s2, e1 ++ e2).

Definition perform (e : Effect) : Cmd := λ s, (s, [e]).

Declare Scope cmd_scope.
Delimit Scope cmd_scope with cmd.
Notation "c1 ;; c2" := (andThen c1 c2)
  (at level 100, c2 at level 200, right associativity) : cmd_scope.

Definition setArtworks (v : list Artwork) : Cmd := λ s,
  (mkState v (loading s) (totalRecords s) (currentPage s) (selectionMode s)
     (customSelectTarget s) (selectedRowIds s) (deselectedRowIds s)
     (customSelectCount s), []).

Definition setLoading (v : bool) : Cmd := λ s,
  (mkState (artworks s) v (totalRecords s) (currentPage s) (selectionMode s)
     (customSelectTarget s) (selectedRowIds s) (deselectedRowIds s)
     (customSelectCount s), []).

Definition setTotalRecords (v : Z) : Cmd := λ s,
  (mkState (artworks s) (loading s) v (currentPage s) (selectionMode s)
     (customSelectTarget s) (selectedRowIds s) (deselectedRowIds s)
     (customSelectCount s), []).

Definition setCurrentPage (v : Z) : Cmd := λ s,
  (mkState (artworks s) (loading s) (totalRecords s) v (selectionMode s)
     (customSelectTarget s) (selectedRowIds s) (deselectedRowIds s)
     (customSelectCount s), []).

Definition setSelectionMode (v : SelectionMode) : Cmd := λ s,
  (mkState (artworks s) (loading s) (totalRecords s) (currentPage s) v
     (customSelectTarget s) (selectedRowIds s) (deselectedRowIds s)
     (customSelectCount s), []).

Definition setCustomSelectTarget (v : Z) : Cmd := λ s,
  (mkState (artworks s) (loading s) (totalRecords s) (currentPage s)
     (selectionMode s) v (selectedRowIds s) (deselectedRowIds s)
     (customSelectCount s), []).

Definition setSelectedRowIds (v : gset Z) : Cmd := λ s,
  (mkState (artworks s) (loading s) (totalRecords s) (currentPage s)
     (selectionMode s) (customSelectTarget s) v (deselectedRowIds s)
     (customSelectCount s), []).

Definition setDeselectedRowIds (v : gset Z) : Cmd := λ s,
  (mkState (artworks s) (loading s) (totalRecords s) (currentPage s)
     (selectionMode s) (customSelectTarget s) (selectedRowIds s) v
     (customSelectCount s), []).

Definition setCustomSelectCount (v : JS.str) : Cmd := λ s,
  (mkState (artworks s) (loading s) (totalRecords s) (currentPage s)
     (selectionMode s) (customSelectTarget s) (selectedRowIds s)
     (deselectedRowIds s) v, []).

Definition alert (msg : AlertMessage) : Cmd := perform (Alert msg).
Definition console_error : Cmd := perform ConsoleError.
Definition hideOverlay : Cmd := perform HideOverlay.

(** ** Array methods with the index argument *)

Section ArrayMethods.
Context {A : Type}.

(** [arr.forEach((x, i) => ...)] on an accumulator, from index [i]. *)
Fixpoint forEachFrom {Acc : Type} (f : Acc → A → nat → Acc)
    (l : list A) (i : nat) (acc : Acc) : Acc :=
  match l with
  | [] => acc
  | x :: l' => forEachFrom f l' (S i) (f acc x i)
  end.

(** [arr.filter((x, i) => p(x, i))], from index [i]. *)
Fixpoint filterFrom (p : A → nat → bool) (l : list A) (i : nat) : list A :=
  match l with
  | [] => []
  | x :: l' =>
      if p x i then x :: filterFrom p l' (S i)
      else filterFrom p l' (S i)
  end.

(** [arr.every((x, i) => p(x, i))], from index [i]. *)
Fixpoint everyFrom (p : A → nat → bool) (l : list A) (i : nat) : bool :=
  match l with
  | [] => true
  | x :: l' => p x i && everyFrom p l' (S i)
  end.
End ArrayMethods.

(** ** Derived views *)

Definition globalPosition (st : State) (indexOnPage : nat) : Z :=
  (currentPage st - 1) * ROWS_PER_PAGE + Z.of_nat indexOnPage + 1.

(** Determine if a specific artwork should be selected. *)
Definition isArtworkSelected (st : State) (artwork : Artwork)
    (indexOnPage : nat) : bool :=
  if bool_decide (id artwork ∈ deselectedRowIds st) then false
  else if bool_decide (id artwork ∈ selectedRowIds st) then true
  else if isCustom (selectionMode st) && (0 <? customSelectTarget st) then
    globalPosition st indexOnPage <=? customSelectTarget st
  else false.

(** The rows of the current page that are selected. *)
Definition getSelectedArtworks (st : State) : list Artwork :=
  filterFrom (isArtworkSelected st) (artworks st) 0.

(** The number of selected rows across all pages. *)
Definition getTotalSelectedCount (st : State) : Z :=
  if isCustom (selectionMode st) && (0 <? customSelectTarget st) then
    let deselectedInRange :=
      Z.of_nat
        (List.length (List.filter (λ _, true) (elements (deselectedRowIds st)))) in
    Z.max 0 (Z.min (customSelectTarget st) (totalRecords st) - deselectedInRange)
  else
    Z.of_nat (size (selectedRowIds st)).

Definition isAllSelected (st : State) : bool :=
  (0 <? Z.of_nat (List.length (artworks st)))
  && everyFrom (isArtworkSelected st) (artworks st) 0.

(** ** Event handlers *)

Definition onPageChange (st : State) (page : Z) : State * list Effect :=
  setCurrentPage (page + 1) st.

(** The pair of id sets that the handlers copy, mutate and store back. *)
Definition IdSets : Type := gset Z * gset Z.

(** [newSelection.some(item => item.id === artwork.id)] *)
Definition someId (newSelection : list Artwork) (artwork : Artwork) : bool :=
  existsb (λ item, id item =? id artwork) newSelection.

(** The body of the [forEach] of [onSelectionChange]; [wasSelected] is
    computed on the rendered state [st], not on the sets being built. *)
Definition selectionChangeRow (st : State) (newSelection : list Artwork)
    (sets : IdSets) (artwork : Artwork) (index : nat) : IdSets :=
  let '(newSelectedIds, newDeselectedIds) := sets in
  let isNowSelected := someId newSelection artwork in
  let wasSelected := isArtworkSelected st artwork index in
  if isNowSelected && negb wasSelected then
    ({[id artwork]} ∪ newSelectedIds, newDeselectedIds ∖ {[id artwork]})
  else if negb isNowSelected && wasSelected then
    (newSelectedIds ∖ {[id artwork]}, {[id artwork]} ∪ newDeselectedIds)
  else sets.

Definition onSelectionChange (st : State) (newSelection : list Artwork)
    : State * list Effect :=
  let sets :=
    forEachFrom (selectionChangeRow st newSelection) (artworks st) 0
      (selectedRowIds st, deselectedRowIds st) in
  (setSelectionMode manual ;;
   setCustomSelectTarget 0 ;;
   setSelectedRowIds sets.1 ;;
   setDeselectedRowIds sets.2)%cmd st.

Definition selectAllRow (checked : bool) (sets : IdSets)
    (artwork : Artwork) (index : nat) : IdSets :=
  let '(newSelectedIds, newDeselectedIds) := sets in
  if checked then
    ({[id artwork]} ∪ newSelectedIds, newDeselectedIds ∖ {[id artwork]})
  else
    (newSelectedIds ∖ {[id artwork]}, {[id artwork]} ∪ newDeselectedIds).

Definition onSelectAllChange (st : State) (checked : bool)
    : State * list Effect :=
  let sets :=
    forEachFrom (selectAllRow checked) (artworks st) 0
      (selectedRowIds st, deselectedRowIds st) in
  (setSelectionMode manual ;;
   setCustomSelectTarget 0 ;;
   setSelectedRowIds sets.1 ;;
   setDeselectedRowIds sets.2)%cmd st.

Definition handleCustomSelection (st : State) : State * list Effect :=
  let count := JS.parseInt (customSelectCount st) in
  if JS.not count || JS.le count 0 || JS.isNaN count then
    alert EnterValidPositive st
  else if JS.gt count (totalRecords st) then
    alert (CannotSelect (default 0 count) (totalRecords st)) st
  else
    (setSelectionMode custom ;;
     setCustomSelectTarget (default 0 count) ;;
     setSelectedRowIds ∅ ;;
     setDeselectedRowIds ∅ ;;
     hideOverlay ;;
     setCustomSelectCount [])%cmd st.

(** ** Fetching a page *)

(** What the awaited request can produce while the table keeps an array of
    rows: [fetch] rejects, [response.json()] rejects (or yields [null], on
    which reading [data.data] throws before anything is stored), or a body
    with a [data] array is parsed.  In a parsed body the [pagination] object
    may be missing, and reading [data.pagination.total] then throws.  A
    parsed body without a [data] array is the extra case of [Response]
    below. *)
Record ApiBody := mkApiBody {
  body_data : list Artwork;
  body_pagination_total : option Z
}.

Inductive FetchOutcome :=
| NetworkError
| UnparsableBody
| Parsed (body : ApiBody).

(** [fetchArtworks] up to its first [await]. *)
Definition fetchArtworks_begin (st : State) (page : Z) : State * list Effect :=
  (setLoading true ;; perform (FetchRequest page ROWS_PER_PAGE))%cmd st.

(** The [try] block after the request settled; the flag tells whether it
    threw. *)
Definition fetchArtworks_try (outcome : FetchOutcome) (st : State)
    : State * list Effect * bool :=
  match outcome with
  | NetworkError => (st, [], true)
  | UnparsableBody => (st, [], true)
  | Parsed body =>
      let '(st1, e1) := setArtworks (body_data body) st in
      match body_pagination_total body with
      | Some total =>
          let '(st2, e2) := setTotalRecords total st1 in (st2, e1 ++ e2, false)
      | None => (st1, e1, true)
      end
  end.

(** [try], then [catch] when it threw, then [finally]. *)
Definition fetchArtworks_settle (st : State) (outcome : FetchOutcome)
    : State * list Effect :=
  let '(st1, e1, threw) := fetchArtworks_try outcome st in
  let '(st2, e2) := (if threw then console_error else skip) st1 in
  let '(st3, e3) := setLoading false st2 in
  (st3, e1 ++ e2 ++ e3).

Definition fetchFailed (outcome : FetchOutcome) : bool :=
  match outcome with
  | NetworkError | UnparsableBody => true
  | Parsed body =>
      match body_pagination_total body with None => true | Some _ => false end
  end.

(** A response taken as it comes: besides the outcomes above, a parsed body
    may have no [data] array.  [setArtworks(data.data)] then stores
    [undefined]; the handler goes on as for any parsed body (it stores the
    total, or logs the failed read of [data.pagination.total]) and clears
    the loading flag; the render that follows evaluates [artworks.length],
    which throws on [undefined], and the component is unmounted. *)
Inductive Response :=
| Usable (outcome : FetchOutcome)
| ParsedWithoutData (pagination_total : option Z).

Inductive Component :=
| Mounted (st : State)
| Unmounted.

(** [fetchArtworks] after the request settled, followed by the render. *)
Definition fetchArtworks_response (st : State) (response : Response)
    : Component * list Effect :=
  match response with
  | Usable outcome =>
      let '(st', effects) := fetchArtworks_settle st outcome in
      (Mounted st', effects)
  | ParsedWithoutData (Some total) => (Unmounted, [])
  | ParsedWithoutData None => (Unmounted, [ConsoleError])
  end.

(** ** Runs of the component

    The events a mounted component handles; a run goes on for as long as the
    component is mounted, so the responses in it are the [FetchOutcome]s. *)

Inductive Event :=
| PageChange (page : Z)
| FetchBegin
| FetchSettle (outcome : FetchOutcome)
| SelectionChange (newSelection : list Artwork)
| SelectAllChange (checked : bool)
| CountInput (value : JS.str)
| CustomSubmit.

Definition handle (st : State) (ev : Event) : State * list Effect :=
  match ev with
  | PageChange page => onPageChange st page
  | FetchBegin => fetchArtworks_begin st (currentPage st)
  | FetchSettle outcome => fetchArtworks_settle st outcome
  | SelectionChange newSelection => onSelectionChange st newSelection
  | SelectAllChange checked => onSelectAllChange st checked
  | CountInput value => setCustomSelectCount value st
  | CustomSubmit => handleCustomSelection st
  end.

(** The state after a sequence of events, each handled on the state the
    previous one left. *)
Definition run (evs : list Event) (st : State) : State :=
  fold_left (λ s ev, (handle s ev).1) evs st.

(** A row with the given id and no other field set. *)
Definition row (i : Z) : Artwork := mkArtwork i None None None None None None.

(** The rows with ids [first], [first + 1], ... ([n] of them). *)
Fixpoint rowsFrom (first : Z) (n : nat) : list Artwork :=
  match n with
  | O => []
  | S n' => row first :: rowsFrom (first + 1) n'
  end.

(** ** States and predicates used in the statements *)

(** The state a manual change leaves, given the two sets it computed. *)
Definition manualState (st : State) (sets : IdSets) : State :=
  mkState (artworks st) (loading st) (totalRecords st) (currentPage st)
    manual 0 sets.1 sets.2 (customSelectCount st).

(** The state an accepted submission leaves. *)
Definition customState (st : State) (count : Z) : State :=
  mkState (artworks st) (loading st) (totalRecords st) (currentPage st)
    custom count ∅ ∅ [].

(** Bulk mode always carries a positive target and two empty sets; manual
    mode always carries the target 0. *)
Definition modeInvariant (st : State) : Prop :=
  match selectionMode st with
  | custom =>
      0 < customSelectTarget st
      ∧ selectedRowIds st = ∅ ∧ deselectedRowIds st = ∅
  | manual => customSelectTarget st = 0
  end.

(** Scenario A of the specification: 50 records in all, the first page
    loaded, then the first 15 rows requested through the overlay. *)
Definition scenarioA_page1 : State :=
  run [FetchBegin;
       FetchSettle (Parsed (mkApiBody (rowsFrom 101 12) (Some 50)));
       CountInput "15";
       CustomSubmit] initialState.

(** The same session after moving to the second page and loading it. *)
Definition scenarioA_page2 : State :=
  run [PageChange 1;
       FetchBegin;
       FetchSettle (Parsed (mkApiBody (rowsFrom 113 12) (Some 50)))]
    scenarioA_page1.

(** The count as the specification words it: the size of the include set in
    manual mode, the clamped difference in bulk mode with a positive target,
    and 0 otherwise. *)
Definition totalSelectedCount_spec (st : State) : Z :=
  match selectionMode st with
  | manual => Z.of_nat (size (selectedRowIds st))
  | custom =>
      if 0 <? customSelectTarget st then
        Z.max 0 (Z.min (customSelectTarget st) (totalRecords st)
                 - Z.of_nat (size (deselectedRowIds st)))
      else 0
  end.

(** [newSelection] is what the table sends when only the rows with id [x]
    were clicked: those rows are in it or not according to [nowSelected], and
    every other row of the page is in it exactly when it was displayed as
    selected. *)
Definition changesOnly (st : State) (x : Z) (nowSelected : bool)
    (newSelection : list Artwork) : bool :=
  everyFrom
    (λ a i, Bool.eqb (someId newSelection a)
                   (if id a =? x then nowSelected
                    else isArtworkSelected st a i))
    (artworks st) 0.

(** A sequence of clicks on the rows with id [x]: off, then on, repeated. *)
Fixpoint offThenOn (x : Z) (clicks : list (list Artwork * list Artwork))
    (st : State) : bool :=
  match clicks with
  | [] => true
  | (off, on) :: rest =>
      let st1 := (onSelectionChange st off).1 in
      let st2 := (onSelectionChange st1 on).1 in
      changesOnly st x false off && changesOnly st1 x true on
      && offThenOn x rest st2
  end.

Definition toggleEvents (clicks : list (list Artwork * list Artwork))
    : list Event :=
  flat_map (λ c, [SelectionChange c.1; SelectionChange c.2]) clicks.

(** Some row of the displayed page has id [x] and is displayed as selected. *)
Definition selectedOnPage (st : State) (x : Z) : Prop :=
  ∃ (i : nat) (a : Artwork),
    artworks st !! i = Some a ∧ id a = x ∧ isArtworkSelected st a i = true.

(** A page of three rows in manual mode, the second of them selected. *)
Definition threeRows : State :=
  mkState (rowsFrom 1 3) false 50 1 manual 0 {[2; 7]} {[3]} [].




(** A state whose input field holds [value], with [total] records known. *)
Definition withInput (value : string) (total : Z) : State :=
  mkState (rowsFrom 1 3) false total 1 manual 0 {[2; 7]} {[3]} value.

(** ** What the rendering reads *)

(** The ids of the rows on display. *)
Definition pageIds (st : State) : gset Z := list_to_set (id <$> artworks st).

(** [Showing {from} to {to} of {totalRecords} entries] under the table. *)
Definition showingFrom (st : State) : Z :=
  ((currentPage st - 1) * ROWS_PER_PAGE) + 1.

Definition showingTo (st : State) : Z :=
  Z.min (currentPage st * ROWS_PER_PAGE) (totalRecords st).

(** The [first] row offset handed to the paginator. *)
Definition paginatorFirst (st : State) : Z :=
  (currentPage st - 1) * ROWS_PER_PAGE.

(** Whether the line [Selected: n rows] is rendered. *)
Definition showsSelectedCount (st : State) : bool :=
  0 <? getTotalSelectedCount st.

(** Whether the note [Selecting first n rows] is rendered. *)
Definition showsCustomNote (st : State) : bool :=
  isCustom (selectionMode st) && (0 <? customSelectTarget st).

(** ** Kinds of events *)

(** Events that come from paging, from the network or from typing. *)
Definition isNavigation (ev : Event) : bool :=
  match ev with
  | PageChange _ | FetchBegin | FetchSettle _ | CountInput _ => true
  | SelectionChange _ | SelectAllChange _ | CustomSubmit => false
  end.

(** Events that come from the check boxes and from the overlay. *)
Definition isSelectionEvent (ev : Event) : bool :=
  match ev with
  | SelectionChange _ | SelectAllChange _ | CustomSubmit | CountInput _ => true
  | PageChange _ | FetchBegin | FetchSettle _ => false
  end.

(** The body whose rows were stored last, if any response stored rows. *)
Fixpoint lastStoredBody (evs : list Event) (seen : option ApiBody)
    : option ApiBody :=
  match evs with
  | [] => seen
  | FetchSettle (Parsed body) :: evs' => lastStoredBody evs' (Some body)
  | _ :: evs' => lastStoredBody evs' seen
  end.

(** The four cells that make up the selection. *)
Definition selectionOf (st : State) : SelectionMode * Z * gset Z * gset Z :=
  (selectionMode st, customSelectTarget st,
   selectedRowIds st, deselectedRowIds st).

(** * Properties *)

(** ** parseInt on a few inputs *)

Example parseInt_15 : JS.parseInt "15" = Some 15.
Proof. reflexivity. Qed.

Example parseInt_neg : JS.parseInt "  -7" = Some (-7).
Proof. reflexivity. Qed.

Example parseInt_empty : JS.parseInt "" = None.
Proof. reflexivity. Qed.

Example parseInt_letters : JS.parseInt "abc" = None.
Proof. reflexivity. Qed.

Example parseInt_hex : JS.parseInt "0x1f" = Some 31.
Proof. reflexivity. Qed.

Example parseInt_prefix : JS.parseInt "12abc" = Some 12.
Proof. reflexivity. Qed.

(** ** The queued updates, field by field *)

Lemma andThen_run (c1 c2 : Cmd) (s : State) :
  (c1 ;; c2)%cmd s = ((c2 (c1 s).1).1, (c1 s).2 ++ (c2 (c1 s).1).2).
Proof.
  unfold andThen. destruct (c1 s) as [s1 e1]. simpl.
  destruct (c2 s1) as [s2 e2]. reflexivity.
Qed.

Lemma onSelectionChange_unfold (st : State) (newSelection : list Artwork) :
  onSelectionChange st newSelection =
    (manualState st
       (forEachFrom (selectionChangeRow st newSelection) (artworks st) 0
          (selectedRowIds st, deselectedRowIds st)), []).
Proof. reflexivity. Qed.

Lemma onSelectAllChange_unfold (st : State) (checked : bool) :
  onSelectAllChange st checked =
    (manualState st
       (forEachFrom (selectAllRow checked) (artworks st) 0
          (selectedRowIds st, deselectedRowIds st)), []).
Proof. reflexivity. Qed.

(** The three ways [handleCustomSelection] can go, by the parsed count. *)
Lemma handleCustomSelection_cases (st : State) :
  match JS.parseInt (customSelectCount st) with
  | None => handleCustomSelection st = (st, [Alert EnterValidPositive])
  | Some n =>
      if (0 <? n) && (n <=? totalRecords st) then
        handleCustomSelection st = (customState st n, [HideOverlay])
      else
        ∃ msg, handleCustomSelection st = (st, [Alert msg])
  end.
Proof.
  unfold handleCustomSelection.
  destruct (JS.parseInt (customSelectCount st)) as [n|]; simpl; [|reflexivity].
  rewrite orb_false_r.
  destruct (Z.ltb_spec 0 n) as [Hpos|Hneg]; simpl.
  - assert ((n =? 0) = false) as -> by lia.
    assert ((n <=? 0) = false) as -> by lia. simpl.
    destruct (Z.leb_spec n (totalRecords st)) as [Hle|Hgt].
    + assert ((totalRecords st <? n) = false) as -> by lia. reflexivity.
    + assert ((totalRecords st <? n) = true) as -> by lia. eauto.
  - assert ((n =? 0) || (n <=? 0) = true) as ->.
    { apply orb_true_iff. right. lia. }
    eauto.
Qed.

(** ** The decision order of [isArtworkSelected] *)

Lemma isArtworkSelected_deselected (st : State) (a : Artwork) (i : nat) :
  id a ∈ deselectedRowIds st → isArtworkSelected st a i = false.
Proof.
  intros H. unfold isArtworkSelected. by rewrite bool_decide_eq_true_2.
Qed.

Lemma isArtworkSelected_selected (st : State) (a : Artwork) (i : nat) :
  id a ∉ deselectedRowIds st → id a ∈ selectedRowIds st →
  isArtworkSelected st a i = true.
Proof.
  intros Hd Hs. unfold isArtworkSelected.
  rewrite bool_decide_eq_false_2 by done. by rewrite bool_decide_eq_true_2.
Qed.

Lemma isArtworkSelected_implicit (st : State) (a : Artwork) (i : nat) :
  id a ∉ deselectedRowIds st → id a ∉ selectedRowIds st →
  isArtworkSelected st a i =
    isCustom (selectionMode st) && (0 <? customSelectTarget st)
    && (globalPosition st i <=? customSelectTarget st).
Proof.
  intros Hd Hs. unfold isArtworkSelected.
  rewrite !bool_decide_eq_false_2 by done.
  by destruct (isCustom (selectionMode st) && (0 <? customSelectTarget st)).
Qed.

(** In manual mode a row is selected exactly when its id is in the include
    set and not in the exclude set, whatever its index. *)
Lemma isArtworkSelected_manual (st : State) (a : Artwork) (i : nat) :
  selectionMode st = manual →
  isArtworkSelected st a i =
    negb (bool_decide (id a ∈ deselectedRowIds st))
    && bool_decide (id a ∈ selectedRowIds st).
Proof.
  intros Hm. unfold isArtworkSelected. rewrite Hm. simpl.
  destruct (bool_decide (id a ∈ deselectedRowIds st)); [done|].
  by destruct (bool_decide (id a ∈ selectedRowIds st)).
Qed.

(** ** What every run preserves *)

Lemma run_app (evs1 evs2 : list Event) (st : State) :
  run (evs1 ++ evs2) st = run evs2 (run evs1 st).
Proof. unfold run. apply fold_left_app. Qed.

Lemma run_preserves (P : State → Prop) :
  (∀ st ev, P st → P (handle st ev).1) →
  ∀ evs st, P st → P (run evs st).
Proof.
  intros Hstep evs. induction evs as [|ev evs IH]; intros st HP; [done|].
  simpl. apply IH, Hstep, HP.
Qed.

Lemma fetchArtworks_settle_selection (st : State) (outcome : FetchOutcome) :
  let st' := (fetchArtworks_settle st outcome).1 in
  selectionMode st' = selectionMode st
  ∧ customSelectTarget st' = customSelectTarget st
  ∧ selectedRowIds st' = selectedRowIds st
  ∧ deselectedRowIds st' = deselectedRowIds st.
Proof.
  destruct outcome as [| |[d [t|]]]; done.
Qed.

Lemma handle_modeInvariant (st : State) (ev : Event) :
  modeInvariant st → modeInvariant (handle st ev).1.
Proof.
  intros Hinv. destruct ev as [page| |outcome|newSelection|checked|value|];
    try exact Hinv; try reflexivity.
  - unfold modeInvariant. simpl handle.
    destruct (fetchArtworks_settle_selection st outcome) as (-> & -> & -> & ->).
    exact Hinv.
  - simpl handle. pose proof (handleCustomSelection_cases st) as Hc.
    destruct (JS.parseInt (customSelectCount st)) as [n|].
    + destruct (Z.ltb_spec 0 n) as [Hpos|Hneg]; simpl in Hc.
      * destruct (n <=? totalRecords st).
        -- rewrite Hc. by repeat split.
        -- destruct Hc as [msg ->]. exact Hinv.
      * destruct Hc as [msg ->]. exact Hinv.
    + rewrite Hc. exact Hinv.
Qed.

Lemma run_modeInvariant (evs : list Event) :
  modeInvariant (run evs initialState).
Proof. apply (run_preserves modeInvariant handle_modeInvariant). reflexivity. Qed.

(** ** Loops over the page *)

Section Loops.
Context {A Acc : Type}.
Implicit Types (l : list A) (k : nat).

(** A property of the accumulator that every iteration keeps holds at the
    end; the iteration at index [k + i] is the one on the row [l !! i]. *)
Lemma forEachFrom_keeps (P : Acc → Prop) (f : Acc → A → nat → Acc) l k acc :
  P acc →
  (∀ i a s, l !! i = Some a → P s → P (f s a (k + i)%nat)) →
  P (forEachFrom f l k acc).
Proof.
  revert k acc. induction l as [|x l IH]; intros k acc Hacc Hstep; [done|].
  simpl. apply IH.
  - specialize (Hstep 0%nat x acc). rewrite Nat.add_0_r in Hstep. by apply Hstep.
  - intros i a s Hi. replace (S k + i)%nat with (k + S i)%nat by lia.
    by apply Hstep.
Qed.

(** When every iteration either applies one idempotent operation or does
    nothing, the loop applies the operation once if some row asks for it. *)
Lemma forEachFrom_one_op (f : Acc → A → nat → Acc) (hit : A → bool)
    (op : Acc → Acc) l k acc :
  (∀ s, op (op s) = op s) →
  (∀ i a s, l !! i = Some a → f s a (k + i)%nat = if hit a then op s else s) →
  forEachFrom f l k acc = if existsb hit l then op acc else acc.
Proof.
  intros Hidem. revert k acc.
  induction l as [|x l IH]; intros k acc Hstep; [done|].
  simpl. rewrite IH.
  - pose proof (Hstep 0%nat x acc eq_refl) as H0. rewrite Nat.add_0_r in H0.
    rewrite H0. destruct (hit x); simpl; [|done].
    destruct (existsb hit l); [apply Hidem | done].
  - intros i a s Hi. replace (S k + i)%nat with (k + S i)%nat by lia.
    by apply Hstep.
Qed.

Lemma everyFrom_lookup (p : A → nat → bool) l k :
  everyFrom p l k = true ↔ ∀ i a, l !! i = Some a → p a (k + i)%nat = true.
Proof.
  revert k. induction l as [|x l IH]; intros k; simpl.
  - split; [intros _ i a Hi; by destruct i | done].
  - rewrite andb_true_iff, IH. split.
    + intros [Hx Hl] [|i] a Hi; simplify_eq/=.
      * by rewrite Nat.add_0_r.
      * replace (k + S i)%nat with (S k + i)%nat by lia. by apply Hl.
    + intros H. split.
      * specialize (H 0%nat x eq_refl). by rewrite Nat.add_0_r in H.
      * intros i a Hi. replace (S k + i)%nat with (k + S i)%nat by lia.
        by apply H.
Qed.

Lemma existsb_lookup (hit : A → bool) l i a :
  l !! i = Some a → hit a = true → existsb hit l = true.
Proof.
  intros Hi Ha. apply existsb_exists. exists a. split; [|done].
  apply list_elem_of_In, list_elem_of_lookup. eauto.
Qed.
End Loops.

(** ** One iteration of each handler *)

Lemma selectionChangeRow_same (st : State) (newSelection : list Artwork)
    (sets : IdSets) (a : Artwork) (i : nat) :
  someId newSelection a = isArtworkSelected st a i →
  selectionChangeRow st newSelection sets a i = sets.
Proof.
  intros H. unfold selectionChangeRow. destruct sets as [s d]. rewrite H.
  by destruct (isArtworkSelected st a i).
Qed.

Lemma selectionChangeRow_other (st : State) (newSelection : list Artwork)
    (sets : IdSets) (a : Artwork) (i : nat) (y : Z) :
  id a ≠ y →
  let sets' := selectionChangeRow st newSelection sets a i in
  (y ∈ sets'.1 ↔ y ∈ sets.1) ∧ (y ∈ sets'.2 ↔ y ∈ sets.2).
Proof.
  intros Hne. unfold selectionChangeRow. destruct sets as [s d].
  destruct (someId newSelection a), (isArtworkSelected st a i); simpl;
    set_solver.
Qed.

Lemma selectionChangeRow_disjoint (st : State) (newSelection : list Artwork)
    (sets : IdSets) (a : Artwork) (i : nat) :
  sets.1 ## sets.2 →
  let sets' := selectionChangeRow st newSelection sets a i in
  sets'.1 ## sets'.2.
Proof.
  unfold selectionChangeRow. destruct sets as [s d].
  destruct (someId newSelection a), (isArtworkSelected st a i); simpl;
    set_solver.
Qed.

Lemma selectAllRow_disjoint (checked : bool) (sets : IdSets)
    (a : Artwork) (i : nat) :
  sets.1 ## sets.2 →
  let sets' := selectAllRow checked sets a i in
  sets'.1 ## sets'.2.
Proof.
  unfold selectAllRow. destruct sets as [s d], checked; simpl; set_solver.
Qed.

Lemma handle_disjoint (st : State) (ev : Event) :
  selectedRowIds st ## deselectedRowIds st →
  selectedRowIds (handle st ev).1 ## deselectedRowIds (handle st ev).1.
Proof.
  intros Hdis. destruct ev as [page| |outcome|newSelection|checked|value|];
    try exact Hdis.
  - simpl handle.
    destruct (fetchArtworks_settle_selection st outcome) as (_ & _ & -> & ->).
    exact Hdis.
  - simpl.
    apply (forEachFrom_keeps (λ sets : IdSets, sets.1 ## sets.2)); [done|].
    intros i a s _. apply selectionChangeRow_disjoint.
  - simpl.
    apply (forEachFrom_keeps (λ sets : IdSets, sets.1 ## sets.2)); [done|].
    intros i a s _. apply selectAllRow_disjoint.
  - simpl handle. pose proof (handleCustomSelection_cases st) as Hc.
    destruct (JS.parseInt (customSelectCount st)) as [n|].
    + destruct ((0 <? n) && (n <=? totalRecords st)).
      * rewrite Hc. simpl. set_solver.
      * destruct Hc as [msg ->]. exact Hdis.
    + rewrite Hc. exact Hdis.
Qed.

(** ** Membership *)

(** C1 (amended): [isArtworkSelected] decides in a fixed order.  An id in the
    exclude set gives false; otherwise an id in the include set gives true;
    otherwise, in bulk mode with a positive target, the row is selected
    exactly when its global position
    [(currentPage - 1) * ROWS_PER_PAGE + indexOnPage + 1] is at most the
    target; otherwise false.  In scenario A (50 records, pages of 12, target
    15) every row of page 1 is selected, and on page 2 exactly the rows at
    indices 0, 1 and 2 (global positions 13, 14 and 15) are. *)
Theorem isArtworkSelected_decision_order :
  (∀ st a i, id a ∈ deselectedRowIds st → isArtworkSelected st a i = false)
  ∧ (∀ st a i,
       id a ∉ deselectedRowIds st → id a ∈ selectedRowIds st →
       isArtworkSelected st a i = true)
  ∧ (∀ st a i,
       id a ∉ deselectedRowIds st → id a ∉ selectedRowIds st →
       selectionMode st = custom → 0 < customSelectTarget st →
       (isArtworkSelected st a i = true
        ↔ (currentPage st - 1) * ROWS_PER_PAGE + Z.of_nat i + 1
          ≤ customSelectTarget st))
  ∧ (∀ st a i,
       id a ∉ deselectedRowIds st → id a ∉ selectedRowIds st →
       ¬ (selectionMode st = custom ∧ 0 < customSelectTarget st) →
       isArtworkSelected st a i = false)
  ∧ (totalRecords scenarioA_page1 = 50
     ∧ selectionMode scenarioA_page1 = custom
     ∧ customSelectTarget scenarioA_page1 = 15
     ∧ currentPage scenarioA_page1 = 1
     ∧ currentPage scenarioA_page2 = 2)
  ∧ (∀ a (i : nat), (i < 12)%nat → isArtworkSelected scenarioA_page1 a i = true)
  ∧ getSelectedArtworks scenarioA_page1 = rowsFrom 101 12
  ∧ (∀ a (i : nat), (i < 12)%nat →
       (isArtworkSelected scenarioA_page2 a i = true ↔ (i ≤ 2)%nat))
  ∧ getSelectedArtworks scenarioA_page2 = rowsFrom 113 3.
Proof.
  split; [exact isArtworkSelected_deselected|].
  split; [exact isArtworkSelected_selected|].
  split.
  { intros st a i Hd Hs Hm Hpos.
    rewrite isArtworkSelected_implicit by done. rewrite Hm. simpl.
    assert ((0 <? customSelectTarget st) = true) as -> by lia. simpl.
    unfold globalPosition. lia. }
  split.
  { intros st a i Hd Hs Hno.
    rewrite isArtworkSelected_implicit by done.
    destruct (selectionMode st); [done|]. simpl.
    destruct (Z.ltb_spec 0 (customSelectTarget st)); [|done].
    exfalso. by apply Hno. }
  split; [by vm_compute|].
  split.
  { intros a i Hi. rewrite isArtworkSelected_implicit by set_solver.
    change ((Z.of_nat i + 1 <=? 15) = true). lia. }
  split; [reflexivity|].
  split; [|reflexivity].
  intros a i Hi. rewrite isArtworkSelected_implicit by set_solver.
  change ((1 * 12 + Z.of_nat i + 1 <=? 15) = true ↔ (i ≤ 2)%nat). lia.
Qed.

(** C1, as the scenario is worded: the row at index 2 of page 2 has global
    position 15, which the target 15 includes, so the rows at indices 0 and 1
    are not the only selected ones. *)
Lemma scenarioA_page2_third_row_selected :
  ¬ (∀ (i : nat) (a : Artwork),
       artworks scenarioA_page2 !! i = Some a →
       (isArtworkSelected scenarioA_page2 a i = true ↔ (i = 0 ∨ i = 1)%nat)).
Proof.
  intros H. specialize (H 2%nat (row 115) eq_refl).
  destruct H as [H _]. specialize (H eq_refl). lia.
Qed.

(** ** Counting *)

Lemma filter_all_length {A : Type} (l : list A) :
  List.length (List.filter (λ _, true) l) = List.length l.
Proof. induction l as [|x l IH]; simpl; congruence. Qed.

Lemma getTotalSelectedCount_unfold (st : State) :
  getTotalSelectedCount st =
    if isCustom (selectionMode st) && (0 <? customSelectTarget st) then
      Z.max 0 (Z.min (customSelectTarget st) (totalRecords st)
               - Z.of_nat (size (deselectedRowIds st)))
    else Z.of_nat (size (selectedRowIds st)).
Proof.
  unfold getTotalSelectedCount. by rewrite filter_all_length.
Qed.

(** The two branches of [getTotalSelectedCount] on an arbitrary record of
    cells, reached or not, and its agreement with the three-case count on
    the states a run reaches. *)
Lemma getTotalSelectedCount_value :
  (∀ st, selectionMode st = manual →
     getTotalSelectedCount st = Z.of_nat (size (selectedRowIds st)))
  ∧ (∀ st, selectionMode st = custom → 0 < customSelectTarget st →
       getTotalSelectedCount st =
         Z.max 0 (Z.min (customSelectTarget st) (totalRecords st)
                  - Z.of_nat (size (deselectedRowIds st))))
  ∧ (∀ st, selectionMode st = custom → customSelectTarget st ≤ 0 →
       getTotalSelectedCount st = Z.of_nat (size (selectedRowIds st)))
  ∧ (∀ evs,
       getTotalSelectedCount (run evs initialState)
       = totalSelectedCount_spec (run evs initialState)).
Proof.
  repeat split.
  - intros st Hm. rewrite getTotalSelectedCount_unfold. by rewrite Hm.
  - intros st Hm Hpos. rewrite getTotalSelectedCount_unfold, Hm. simpl.
    by assert ((0 <? customSelectTarget st) = true) as -> by lia.
  - intros st Hm Hneg. rewrite getTotalSelectedCount_unfold, Hm. simpl.
    by assert ((0 <? customSelectTarget st) = false) as -> by lia.
  - intros evs. pose proof (run_modeInvariant evs) as Hinv.
    rewrite getTotalSelectedCount_unfold.
    unfold totalSelectedCount_spec, modeInvariant in *.
    destruct (selectionMode (run evs initialState)); [done|]. simpl.
    destruct Hinv as (Hpos & _).
    by assert ((0 <? customSelectTarget (run evs initialState)) = true)
      as -> by lia.
Qed.

(** C2: on every state of the component, that is every state a run reaches
    from the initial state, [getTotalSelectedCount] is the size of the
    include set in manual mode, [max 0 (min target total - |exclude set|)]
    in bulk mode with a positive target, and 0 otherwise.  The bulk formula
    subtracts the raw size of the exclude set, and so it does on any record
    of cells in bulk mode with a positive target. *)
Theorem getTotalSelectedCount_three_cases :
  (∀ evs,
     let st := run evs initialState in
     match selectionMode st with
     | manual =>
         getTotalSelectedCount st = Z.of_nat (size (selectedRowIds st))
     | custom =>
         if 0 <? customSelectTarget st then
           getTotalSelectedCount st
           = Z.max 0 (Z.min (customSelectTarget st) (totalRecords st)
                      - Z.of_nat (size (deselectedRowIds st)))
         else getTotalSelectedCount st = 0
     end)
  ∧ (∀ st, selectionMode st = custom → 0 < customSelectTarget st →
       getTotalSelectedCount st
       = Z.max 0 (Z.min (customSelectTarget st) (totalRecords st)
                  - Z.of_nat (size (deselectedRowIds st))))
  ∧ (∀ st, selectionMode st = manual →
       getTotalSelectedCount st = Z.of_nat (size (selectedRowIds st))).
Proof.
  split; [|split].
  - intros evs st. pose proof (run_modeInvariant evs) as Hinv.
    fold st in Hinv. unfold modeInvariant in Hinv.
    rewrite getTotalSelectedCount_unfold.
    destruct (selectionMode st); [done|]. cbn [isCustom andb].
    destruct Hinv as (Hpos & _).
    by assert ((0 <? customSelectTarget st) = true) as -> by lia.
  - intros st Hm Hpos. rewrite getTotalSelectedCount_unfold, Hm.
    cbn [isCustom andb].
    by assert ((0 <? customSelectTarget st) = true) as -> by lia.
  - intros st Hm. by rewrite getTotalSelectedCount_unfold, Hm.
Qed.

(** A record of cells that no run reaches, bulk mode with target 0 and a
    non-empty include set, falls into the second branch. *)
Example getTotalSelectedCount_bulk_without_target :
  let st := mkState [] false 50 1 custom 0 {[1]} ∅ [] in
  selectionMode st = custom
  ∧ ¬ (0 < customSelectTarget st)
  ∧ getTotalSelectedCount st ≠ 0
  ∧ getTotalSelectedCount st ≠ totalSelectedCount_spec st.
Proof. by vm_compute. Qed.

(** ** Submitting a count *)












(** Other inputs read by their leading digits: a decimal fraction, an
    exponent, and digits after a no-break space. *)
Example parseInt_leading_digits :
  JS.parseInt "12.7" = Some 12
  ∧ JS.parseInt "1e3" = Some 1
  ∧ JS.parseInt (160%N :: JS.units "15") = Some 15
  ∧ JS.parseInt (65279%N :: 8232%N :: JS.units "15") = Some 15.
Proof. by vm_compute. Qed.

(** Above 53 bits the count read is the nearest double. *)
Example parseInt_rounds :
  JS.parseInt "9007199254740993" = Some 9007199254740992
  ∧ JS.parseInt "9007199254740995" = Some 9007199254740996
  ∧ JS.parseInt "-99999999999999999999999" = Some (-99999999999999991611392).
Proof. by vm_compute. Qed.

(** C4: after a submission that is accepted, that is one whose parsed count
    [n] satisfies [0 < n ≤ totalRecords], both id sets are empty, the mode
    is bulk and the target is [n]. *)
Theorem handleCustomSelection_accepts (st : State) (n : Z) :
  JS.parseInt (customSelectCount st) = Some n →
  0 < n → n ≤ totalRecords st →
  let st' := (handleCustomSelection st).1 in
  selectedRowIds st' = ∅
  ∧ deselectedRowIds st' = ∅
  ∧ selectionMode st' = custom
  ∧ customSelectTarget st' = n
  ∧ (handleCustomSelection st).2 = [HideOverlay].
Proof.
  intros Hn Hpos Hle. pose proof (handleCustomSelection_cases st) as Hc.
  rewrite Hn in Hc.
  assert ((0 <? n) && (n <=? totalRecords st) = true) as Hok.
  { apply andb_true_iff. lia. }
  rewrite Hok in Hc. by rewrite Hc.
Qed.

Lemma handleCustomSelection_accepts_witness :
  let st' := (handleCustomSelection (withInput "15" 50)).1 in
  selectedRowIds st' = ∅
  ∧ deselectedRowIds st' = ∅
  ∧ selectionMode st' = custom
  ∧ customSelectTarget st' = 15
  ∧ (handleCustomSelection (withInput "15" 50)).2 = [HideOverlay].
Proof.
  apply (handleCustomSelection_accepts (withInput "15" 50) 15);
    [reflexivity | reflexivity | discriminate].
Defined.

(** ** Manual changes *)

(** C5: after [onSelectionChange] or [onSelectAllChange] the mode is manual
    and the target is 0, whatever the mode and the target were before. *)
Theorem manual_change_resets_mode (st : State) (newSelection : list Artwork)
    (checked : bool) :
  selectionMode (onSelectionChange st newSelection).1 = manual
  ∧ customSelectTarget (onSelectionChange st newSelection).1 = 0
  ∧ selectionMode (onSelectAllChange st checked).1 = manual
  ∧ customSelectTarget (onSelectAllChange st checked).1 = 0.
Proof.
  rewrite onSelectionChange_unfold, onSelectAllChange_unfold.
  repeat split.
Qed.

(** C6: from the initial state, after any sequence of events (the three
    selection operations, page changes, fetches and typing in the overlay)
    no id is in both the include set and the exclude set. *)
Theorem include_exclude_disjoint (evs : list Event) (i : Z) :
  ¬ (i ∈ selectedRowIds (run evs initialState)
     ∧ i ∈ deselectedRowIds (run evs initialState)).
Proof.
  assert (selectedRowIds (run evs initialState)
          ## deselectedRowIds (run evs initialState)) as Hdis.
  { apply (run_preserves (λ st, selectedRowIds st ## deselectedRowIds st));
      [exact handle_disjoint | set_solver]. }
  set_solver.
Qed.

(** C10: on every state a run reaches from the initial state, bulk mode
    comes with a positive target and two empty id sets, so that membership
    there is decided by the global position alone, and manual mode comes
    with the target 0. *)
Theorem reachable_mode_invariant (evs : list Event) :
  let st := run evs initialState in
  match selectionMode st with
  | custom =>
      0 < customSelectTarget st
      ∧ selectedRowIds st = ∅
      ∧ deselectedRowIds st = ∅
      ∧ ∀ a i,
          bool_decide (id a ∈ deselectedRowIds st) = false
          ∧ bool_decide (id a ∈ selectedRowIds st) = false
          ∧ isArtworkSelected st a i
            = (globalPosition st i <=? customSelectTarget st)
  | manual => customSelectTarget st = 0
  end.
Proof.
  intros st. pose proof (run_modeInvariant evs) as Hinv.
  fold st in Hinv. unfold modeInvariant in Hinv.
  destruct (selectionMode st) eqn:Hm; [done|].
  destruct Hinv as (Hpos & Hs & Hd). repeat split; try done.
  - rewrite Hd. by apply bool_decide_eq_false_2.
  - rewrite Hs. by apply bool_decide_eq_false_2.
  - rewrite isArtworkSelected_implicit, Hm by (rewrite ?Hs, ?Hd; set_solver).
    simpl. by assert ((0 <? customSelectTarget st) = true) as -> by lia.
Qed.

(** C8: [onSelectionChange] leaves an id where it was, in the include set
    and in the exclude set, unless some row of the displayed page carries
    that id and its presence in the new selection differs from its displayed
    selection.  This covers the ids of rows that are not on the page and the
    rows of the page whose selected status did not change. *)
Theorem onSelectionChange_frame (st : State) (newSelection : list Artwork)
    (y : Z) :
  (∀ i a, artworks st !! i = Some a → id a = y →
          someId newSelection a = isArtworkSelected st a i) →
  let st' := (onSelectionChange st newSelection).1 in
  (y ∈ selectedRowIds st' ↔ y ∈ selectedRowIds st)
  ∧ (y ∈ deselectedRowIds st' ↔ y ∈ deselectedRowIds st).
Proof.
  intros Hsame. rewrite onSelectionChange_unfold. simpl.
  apply (forEachFrom_keeps
           (λ sets : IdSets,
              (y ∈ sets.1 ↔ y ∈ selectedRowIds st)
              ∧ (y ∈ sets.2 ↔ y ∈ deselectedRowIds st))); [done|].
  intros i a s Hi [Hs Hd]. simpl.
  destruct (decide (id a = y)) as [Heq|Hne].
  - by rewrite selectionChangeRow_same by by apply Hsame.
  - destruct (selectionChangeRow_other st newSelection s a i y Hne) as [H1 H2].
    split; [by rewrite H1 | by rewrite H2].
Qed.

Lemma onSelectionChange_frame_witness :
  let st' := (onSelectionChange threeRows [row 2; row 3]).1 in
  ((2 ∈ selectedRowIds st' ↔ 2 ∈ selectedRowIds threeRows)
   ∧ (2 ∈ deselectedRowIds st' ↔ 2 ∈ deselectedRowIds threeRows))
  ∧ ((7 ∈ selectedRowIds st' ↔ 7 ∈ selectedRowIds threeRows)
     ∧ (7 ∈ deselectedRowIds st' ↔ 7 ∈ deselectedRowIds threeRows)).
Proof.
  split.
  - apply (onSelectionChange_frame threeRows [row 2; row 3] 2).
    intros [|[|[|i]]] a Hi Ha; simpl in Hi; inversion Hi; subst a;
      first [reflexivity | discriminate Ha].
  - apply (onSelectionChange_frame threeRows [row 2; row 3] 7).
    intros [|[|[|i]]] a Hi Ha; simpl in Hi; inversion Hi; subst a;
      discriminate Ha.
Defined.

(** ** Clicking one row off and on *)

Lemma changesOnly_lookup (st : State) (x : Z) (now : bool)
    (newSelection : list Artwork) (i : nat) (a : Artwork) :
  changesOnly st x now newSelection = true →
  artworks st !! i = Some a →
  someId newSelection a
  = if id a =? x then now else isArtworkSelected st a i.
Proof.
  unfold changesOnly. rewrite everyFrom_lookup. intros H Hi.
  specialize (H i a Hi). simpl in H. by apply eqb_prop in H.
Qed.

Lemma selectedOnPage_manual (st : State) (x : Z) :
  selectionMode st = manual → selectedOnPage st x →
  x ∈ selectedRowIds st ∧ (x ∉ deselectedRowIds st)
  ∧ existsb (λ a, id a =? x) (artworks st) = true.
Proof.
  intros Hm (i & a & Hi & <- & Hsel).
  rewrite isArtworkSelected_manual in Hsel by done.
  apply andb_true_iff in Hsel as [Hd Hs].
  apply negb_true_iff, bool_decide_eq_false in Hd.
  apply bool_decide_eq_true in Hs.
  repeat split; [done..|].
  apply (existsb_lookup _ _ i a Hi). lia.
Qed.

(** Clicking off the rows with id [x], selected through the include set. *)
Lemma click_off_sets (st : State) (x : Z) (off : list Artwork) :
  x ∈ selectedRowIds st → x ∉ deselectedRowIds st →
  existsb (λ a, id a =? x) (artworks st) = true →
  changesOnly st x false off = true →
  forEachFrom (selectionChangeRow st off) (artworks st) 0
    (selectedRowIds st, deselectedRowIds st)
  = (selectedRowIds st ∖ {[x]}, {[x]} ∪ deselectedRowIds st).
Proof.
  intros Hs Hd Hon Hoff.
  rewrite (forEachFrom_one_op _ (λ a, id a =? x)
             (λ s : IdSets, (s.1 ∖ {[x]}, {[x]} ∪ s.2))).
  - by rewrite Hon.
  - intros [s d]. simpl. f_equal; set_solver.
  - intros i a [s d] Hi. change (0 + i)%nat with i. cbn beta.
    pose proof (changesOnly_lookup _ _ _ _ i a Hoff Hi) as Hnow.
    destruct (Z.eqb_spec (id a) x) as [Hx|Hx].
    + unfold selectionChangeRow. rewrite Hnow.
      rewrite isArtworkSelected_selected by by rewrite Hx.
      simpl. by rewrite Hx.
    + by apply selectionChangeRow_same.
Qed.

(** Clicking on the rows with id [x], deselected through the exclude set. *)
Lemma click_on_sets (st : State) (x : Z) (on : list Artwork) :
  x ∈ deselectedRowIds st →
  existsb (λ a, id a =? x) (artworks st) = true →
  changesOnly st x true on = true →
  forEachFrom (selectionChangeRow st on) (artworks st) 0
    (selectedRowIds st, deselectedRowIds st)
  = ({[x]} ∪ selectedRowIds st, deselectedRowIds st ∖ {[x]}).
Proof.
  intros Hd Hon Hnew.
  rewrite (forEachFrom_one_op _ (λ a, id a =? x)
             (λ s : IdSets, ({[x]} ∪ s.1, s.2 ∖ {[x]}))).
  - by rewrite Hon.
  - intros [s d]. simpl. f_equal; set_solver.
  - intros i a [s d] Hi. change (0 + i)%nat with i. cbn beta.
    pose proof (changesOnly_lookup _ _ _ _ i a Hnew Hi) as Hnow.
    destruct (Z.eqb_spec (id a) x) as [Hx|Hx].
    + unfold selectionChangeRow. rewrite Hnow.
      rewrite isArtworkSelected_deselected by by rewrite Hx.
      simpl. by rewrite Hx.
    + by apply selectionChangeRow_same.
Qed.

(** One click off followed by one click on gives back both sets; in between
    the id sits in the exclude set only. *)
Lemma click_off_on (st : State) (x : Z) (off on : list Artwork) :
  selectionMode st = manual → selectedOnPage st x →
  changesOnly st x false off = true →
  changesOnly (onSelectionChange st off).1 x true on = true →
  let st1 := (onSelectionChange st off).1 in
  let st2 := (onSelectionChange st1 on).1 in
  ((x ∉ selectedRowIds st1) ∧ x ∈ deselectedRowIds st1)
  ∧ selectedRowIds st2 = selectedRowIds st
  ∧ deselectedRowIds st2 = deselectedRowIds st.
Proof.
  intros Hm Hsel Hoff Hon st1 st2.
  destruct (selectedOnPage_manual st x Hm Hsel) as (Hs & Hd & Hpage).
  assert (selectedRowIds st1 = selectedRowIds st ∖ {[x]}
          ∧ deselectedRowIds st1 = {[x]} ∪ deselectedRowIds st) as [Hs1 Hd1].
  { unfold st1. rewrite onSelectionChange_unfold. simpl.
    by rewrite (click_off_sets st x off). }
  assert (artworks st1 = artworks st) as Hart by done.
  change (changesOnly st1 x true on = true) in Hon.
  unfold st2. clearbody st1.
  split; [rewrite Hs1, Hd1; set_solver|].
  rewrite onSelectionChange_unfold. simpl.
  rewrite (click_on_sets st1 x on);
    [|rewrite Hd1; set_solver|by rewrite Hart|exact Hon].
  simpl. rewrite Hs1, Hd1.
  split; apply set_eq; intros z; destruct (decide (z = x)); set_solver.
Qed.

(** The other direction, for a row that sits in the exclude set: one click
    on followed by one click off gives back both sets as well. *)
Lemma click_on_off (st : State) (x : Z) (on off : list Artwork) :
  x ∈ deselectedRowIds st → x ∉ selectedRowIds st →
  existsb (λ a, id a =? x) (artworks st) = true →
  changesOnly st x true on = true →
  changesOnly (onSelectionChange st on).1 x false off = true →
  let st1 := (onSelectionChange st on).1 in
  let st2 := (onSelectionChange st1 off).1 in
  (x ∈ selectedRowIds st1 ∧ (x ∉ deselectedRowIds st1))
  ∧ selectedRowIds st2 = selectedRowIds st
  ∧ deselectedRowIds st2 = deselectedRowIds st.
Proof.
  intros Hd Hs Hpage Hon Hoff st1 st2.
  assert (selectedRowIds st1 = {[x]} ∪ selectedRowIds st
          ∧ deselectedRowIds st1 = deselectedRowIds st ∖ {[x]}) as [Hs1 Hd1].
  { unfold st1. rewrite onSelectionChange_unfold. simpl.
    by rewrite (click_on_sets st x on). }
  assert (artworks st1 = artworks st) as Hart by done.
  change (changesOnly st1 x false off = true) in Hoff.
  unfold st2. clearbody st1.
  split; [rewrite Hs1, Hd1; set_solver|].
  rewrite onSelectionChange_unfold. simpl.
  rewrite (click_off_sets st1 x off);
    [|rewrite Hs1; set_solver|rewrite Hd1; set_solver
     |by rewrite Hart|exact Hoff].
  simpl. rewrite Hs1, Hd1.
  split; apply set_eq; intros z; destruct (decide (z = x)); set_solver.
Qed.

(** C7: in manual mode, for a row of the page that is displayed as selected,
    one click off followed by one click on, neither touching another row,
    gives back the include set and the exclude set as they were before the
    first click; so does any number of such pairs, that is any even number
    of clicks. *)
Theorem toggle_off_on_restores (x : Z)
    (clicks : list (list Artwork * list Artwork)) (st : State) :
  selectionMode st = manual →
  selectedOnPage st x →
  offThenOn x clicks st = true →
  let st' := run (toggleEvents clicks) st in
  selectedRowIds st' = selectedRowIds st
  ∧ deselectedRowIds st' = deselectedRowIds st.
Proof.
  revert st. induction clicks as [|[off on] rest IH]; intros st Hm Hsel Hrun;
    [done|].
  simpl in Hrun.
  apply andb_true_iff in Hrun as [Hrun Hrest].
  apply andb_true_iff in Hrun as [Hoff Hon].
  destruct (click_off_on st x off on Hm Hsel Hoff Hon) as (_ & Hs2 & Hd2).
  set (st2 := (onSelectionChange (onSelectionChange st off).1 on).1) in *.
  assert (selectionMode st2 = manual) as Hm2 by done.
  assert (selectedOnPage st2 x) as Hsel2.
  { destruct Hsel as (i & a & Hi & Ha & Hsel). exists i, a.
    repeat split; [done..|].
    rewrite isArtworkSelected_manual in Hsel |- * by done.
    by rewrite Hs2, Hd2. }
  destruct (IH st2 Hm2 Hsel2 Hrest) as [Hs Hd].
  change (run (toggleEvents ((off, on) :: rest)) st)
    with (run (toggleEvents rest) st2).
  simpl. by rewrite Hs, Hd.
Qed.

Lemma toggle_off_on_restores_witness :
  let clicks := [([], [row 2]); ([row 9], [row 9; row 2])] in
  let st' := run (toggleEvents clicks) threeRows in
  selectedRowIds st' = selectedRowIds threeRows
  ∧ deselectedRowIds st' = deselectedRowIds threeRows.
Proof.
  apply (toggle_off_on_restores 2
           [([], [row 2]); ([row 9], [row 9; row 2])] threeRows).
  - reflexivity.
  - exists 1%nat, (row 2). repeat split.
  - reflexivity.
Defined.

(** A row that is in neither set does not come back to where it was: clicked
    on and then off in manual mode, its id ends in the exclude set. *)
Example click_on_off_ends_excluded :
  let st' :=
    run [SelectionChange [row 2; row 1]; SelectionChange [row 2]] threeRows in
  bool_decide (1 ∈ selectedRowIds threeRows) = false
  ∧ bool_decide (1 ∈ deselectedRowIds threeRows) = false
  ∧ bool_decide (1 ∈ selectedRowIds st') = false
  ∧ bool_decide (1 ∈ deselectedRowIds st') = true.
Proof. by vm_compute. Qed.

(** ** A failed fetch *)

(** C9 (amended): when the network call or the reading of the body throws,
    or the parsed body has its [data] array and lacks its pagination, the
    component stays mounted: the failure is logged once, no further request
    is sent, the loading flag is cleared, and the mode, the target, both id
    sets, the current page, the total and the input field are as before.
    When the network call or the reading of the body threw, the rows on
    display are the rows that were there before, not an empty page. *)
Theorem fetch_failure_contained (st : State) (outcome : FetchOutcome) :
  fetchFailed outcome = true →
  let st' := (fetchArtworks_settle st outcome).1 in
  fetchArtworks_response st (Usable outcome) = (Mounted st', [ConsoleError])
  ∧ (fetchArtworks_settle st outcome).2 = [ConsoleError]
  ∧ loading st' = false
  ∧ selectionMode st' = selectionMode st
  ∧ customSelectTarget st' = customSelectTarget st
  ∧ selectedRowIds st' = selectedRowIds st
  ∧ deselectedRowIds st' = deselectedRowIds st
  ∧ currentPage st' = currentPage st
  ∧ totalRecords st' = totalRecords st
  ∧ customSelectCount st' = customSelectCount st
  ∧ (outcome = NetworkError ∨ outcome = UnparsableBody →
     artworks st' = artworks st).
Proof.
  intros Hfail. destruct outcome as [| |[rows [total|]]];
    try discriminate Hfail; simpl; repeat split.
  intros [H|H]; discriminate H.
Qed.

Lemma fetch_failure_contained_witness :
  let st' := (fetchArtworks_settle scenarioA_page1 NetworkError).1 in
  fetchArtworks_response scenarioA_page1 (Usable NetworkError)
  = (Mounted st', [ConsoleError])
  ∧ (fetchArtworks_settle scenarioA_page1 NetworkError).2 = [ConsoleError]
  ∧ loading st' = false
  ∧ selectionMode st' = selectionMode scenarioA_page1
  ∧ customSelectTarget st' = customSelectTarget scenarioA_page1
  ∧ selectedRowIds st' = selectedRowIds scenarioA_page1
  ∧ deselectedRowIds st' = deselectedRowIds scenarioA_page1
  ∧ currentPage st' = currentPage scenarioA_page1
  ∧ totalRecords st' = totalRecords scenarioA_page1
  ∧ customSelectCount st' = customSelectCount scenarioA_page1
  ∧ (NetworkError = NetworkError ∨ NetworkError = UnparsableBody →
     artworks st' = artworks scenarioA_page1).
Proof.
  apply (fetch_failure_contained scenarioA_page1 NetworkError). reflexivity.
Defined.

(** In scenario A, when the request for page 2 fails, the table still holds
    the twelve rows of page 1; the page is not empty. *)
Lemma fetch_failure_keeps_rows :
  let st :=
    run [PageChange 1; FetchBegin; FetchSettle NetworkError] scenarioA_page1 in
  artworks st ≠ []
  ∧ artworks st = rowsFrom 101 12
  ∧ currentPage st = 2
  ∧ getSelectedArtworks st = rowsFrom 101 3.
Proof. by vm_compute. Qed.

(** C9, as worded: a failed request for page 2 leaves the twelve rows of
    page 1 on display, so the page is not treated as empty; and a parsed
    body without a [data] array, with or without pagination, unmounts the
    component, so not every malformed response is survived. *)
Lemma fetch_failure_not_contained :
  artworks (fetchArtworks_settle scenarioA_page1 NetworkError).1 ≠ []
  ∧ fetchArtworks_response scenarioA_page1 (ParsedWithoutData None)
    = (Unmounted, [ConsoleError])
  ∧ fetchArtworks_response scenarioA_page1 (ParsedWithoutData (Some 50))
    = (Unmounted, []).
Proof. by vm_compute. Qed.

(** A parsed body without pagination is logged as a failure after its rows
    were stored: the rows change and the total does not. *)
Example fetch_without_pagination :
  let st' :=
    (fetchArtworks_settle scenarioA_page1
       (Parsed (mkApiBody (rowsFrom 113 12) None))).1 in
  artworks st' = rowsFrom 113 12 ∧ totalRecords st' = 50.
Proof. by vm_compute. Qed.

(** * Further properties *)

(** ** More on loops over the page *)

Section MoreLoops.
Context {A Acc : Type}.
Implicit Types (l : list A) (k : nat).

(** A property that the iteration on one row establishes, and that every
    iteration keeps, holds at the end. *)
Lemma forEachFrom_establishes (Q : Acc → Prop) (f : Acc → A → nat → Acc)
    l k acc i a :
  l !! i = Some a →
  (∀ s, Q (f s a (k + i)%nat)) →
  (∀ j b s, l !! j = Some b → Q s → Q (f s b (k + j)%nat)) →
  Q (forEachFrom f l k acc).
Proof.
  revert k acc i. induction l as [|x l IH]; intros k acc i Hi Hest Hkeep;
    [done|].
  destruct i as [|i]; simpl in *.
  - simplify_eq. apply forEachFrom_keeps.
    + specialize (Hest acc). by rewrite Nat.add_0_r in Hest.
    + intros j b s Hj. replace (S k + j)%nat with (k + S j)%nat by lia.
      by apply (Hkeep (S j)).
  - apply (IH (S k) _ i Hi).
    + intros s. replace (S k + i)%nat with (k + S i)%nat by lia. apply Hest.
    + intros j b s Hj. replace (S k + j)%nat with (k + S j)%nat by lia.
      by apply (Hkeep (S j)).
Qed.

Lemma filterFrom_length (p : A → nat → bool) l k :
  (List.length (filterFrom p l k) ≤ List.length l)%nat.
Proof.
  revert k. induction l as [|x l IH]; intros k; simpl; [done|].
  specialize (IH (S k)). destruct (p x k); simpl; lia.
Qed.

(** The filter keeps the whole array exactly when every row passes. *)
Lemma filterFrom_all (p : A → nat → bool) l k :
  filterFrom p l k = l ↔ everyFrom p l k = true.
Proof.
  revert k. induction l as [|x l IH]; intros k; simpl; [done|].
  destruct (p x k); simpl.
  - rewrite <- IH. split; [by intros [=] | by intros ->].
  - split; [|done]. intros H.
    pose proof (filterFrom_length p l (S k)) as Hlen.
    rewrite H in Hlen. simpl in Hlen. lia.
Qed.

Lemma filterFrom_none (p : A → nat → bool) l k :
  (∀ i a, l !! i = Some a → p a (k + i)%nat = false) →
  filterFrom p l k = [].
Proof.
  revert k. induction l as [|x l IH]; intros k H; simpl; [done|].
  pose proof (H 0%nat x eq_refl) as H0. rewrite Nat.add_0_r in H0.
  rewrite H0. apply IH. intros i a Hi.
  replace (S k + i)%nat with (k + S i)%nat by lia. by apply H.
Qed.

Lemma filterFrom_elem (p : A → nat → bool) l k (b : A) :
  b ∈ filterFrom p l k ↔ ∃ j, l !! j = Some b ∧ p b (k + j)%nat = true.
Proof.
  revert k. induction l as [|x l IH]; intros k; simpl.
  - split; [by intros ?%elem_of_nil | by intros (j & ? & _)].
  - assert (b ∈ filterFrom p l (S k)
            ↔ ∃ j, l !! j = Some b ∧ p b (k + S j)%nat = true) as Htail.
    { rewrite IH. split; intros (j & Hj & Hp); exists j; split; try done.
      - by replace (k + S j)%nat with (S k + j)%nat by lia.
      - by replace (S k + j)%nat with (k + S j)%nat by lia. }
    destruct (p x k) eqn:Hx.
    + rewrite elem_of_cons, Htail. split.
      * intros [->|(j & Hj & Hp)].
        -- exists 0%nat. by rewrite Nat.add_0_r.
        -- by exists (S j).
      * intros ([|j] & Hj & Hp); simplify_eq/=; [by left|]. right. eauto.
    + rewrite Htail. split.
      * intros (j & Hj & Hp). by exists (S j).
      * intros ([|j] & Hj & Hp); simplify_eq/=; [|eauto].
        rewrite Nat.add_0_r in Hp. congruence.
Qed.
End MoreLoops.

(** ** Select all and deselect all *)

Lemma selectAll_fold (checked : bool) (l : list Artwork) (k : nat)
    (s d : gset Z) :
  forEachFrom (selectAllRow checked) l k (s, d)
  = if checked
    then (list_to_set (id <$> l) ∪ s, d ∖ list_to_set (id <$> l))
    else (s ∖ list_to_set (id <$> l), list_to_set (id <$> l) ∪ d).
Proof.
  revert k s d. induction l as [|x l IH]; intros k s d; simpl.
  - destruct checked; f_equal; set_solver.
  - destruct checked; simpl; rewrite IH; f_equal; set_solver.
Qed.

Lemma onSelectAllChange_sets_aux (st : State) :
  (selectedRowIds (onSelectAllChange st true).1
     = pageIds st ∪ selectedRowIds st
   ∧ deselectedRowIds (onSelectAllChange st true).1
     = deselectedRowIds st ∖ pageIds st)
  ∧ (selectedRowIds (onSelectAllChange st false).1
       = selectedRowIds st ∖ pageIds st
     ∧ deselectedRowIds (onSelectAllChange st false).1
       = pageIds st ∪ deselectedRowIds st).
Proof.
  rewrite !onSelectAllChange_unfold. simpl. by rewrite !selectAll_fold.
Qed.

(** The header check box moves the ids of the page, and only those: checked,
    they all join the include set and leave the exclude set; unchecked, they
    all join the exclude set and leave the include set. *)
Theorem onSelectAllChange_sets (st : State) :
  (selectedRowIds (onSelectAllChange st true).1
     = pageIds st ∪ selectedRowIds st
   ∧ deselectedRowIds (onSelectAllChange st true).1
     = deselectedRowIds st ∖ pageIds st)
  ∧ (selectedRowIds (onSelectAllChange st false).1
       = selectedRowIds st ∖ pageIds st
     ∧ deselectedRowIds (onSelectAllChange st false).1
       = pageIds st ∪ deselectedRowIds st).
Proof. exact (onSelectAllChange_sets_aux st). Qed.

Lemma everyFrom_intro {A : Type} (p : A → nat → bool) (l : list A) (k : nat) :
  (∀ i a, l !! i = Some a → p a (k + i)%nat = true) → everyFrom p l k = true.
Proof. apply everyFrom_lookup. Qed.

Lemma elem_pageIds (st : State) (i : nat) (a : Artwork) :
  artworks st !! i = Some a → id a ∈ pageIds st.
Proof.
  intros Hi. unfold pageIds. apply elem_of_list_to_set, list_elem_of_fmap.
  exists a. split; [done|]. apply list_elem_of_lookup. eauto.
Qed.

(** After the header check box is checked every row of the page is displayed
    as selected, and the box itself shows checked unless the page is empty;
    after it is unchecked no row of the page is displayed as selected and the
    box shows unchecked. *)
Theorem onSelectAllChange_display (st : State) :
  (getSelectedArtworks (onSelectAllChange st true).1 = artworks st
   ∧ isAllSelected (onSelectAllChange st true).1
     = bool_decide (artworks st ≠ []))
  ∧ (getSelectedArtworks (onSelectAllChange st false).1 = []
     ∧ isAllSelected (onSelectAllChange st false).1 = false).
Proof.
  destruct (onSelectAllChange_sets_aux st) as [[Hs1 Hd1] [Hs2 Hd2]].
  assert (everyFrom (isArtworkSelected (onSelectAllChange st true).1)
            (artworks st) 0 = true) as Hall.
  { apply everyFrom_intro. intros i a Hi.
    pose proof (elem_pageIds st i a Hi) as Hin.
    apply isArtworkSelected_selected; rewrite ?Hs1, ?Hd1; set_solver. }
  assert (∀ i a, artworks st !! i = Some a →
            isArtworkSelected (onSelectAllChange st false).1 a (0 + i)%nat
            = false) as Hnone.
  { intros i a Hi. pose proof (elem_pageIds st i a Hi) as Hin.
    apply isArtworkSelected_deselected. rewrite Hd2. set_solver. }
  split; split.
  - unfold getSelectedArtworks. by apply filterFrom_all.
  - unfold isAllSelected.
    change (artworks (onSelectAllChange st true).1) with (artworks st).
    rewrite Hall, andb_true_r. destruct (artworks st); done.
  - unfold getSelectedArtworks. by apply filterFrom_none.
  - unfold isAllSelected.
    change (artworks (onSelectAllChange st false).1) with (artworks st).
    destruct (artworks st) as [|x l] eqn:Hl; [done|].
    specialize (Hnone 0%nat x eq_refl).
    simpl in Hnone |- *. by rewrite Hnone.
Qed.

(** Two uses of the header check box in a row amount to the second one: the
    state after both is the state the second alone would have left. *)
Theorem onSelectAllChange_last_wins (st : State) (earlier later : bool) :
  (onSelectAllChange (onSelectAllChange st earlier).1 later).1
  = (onSelectAllChange st later).1.
Proof.
  rewrite !onSelectAllChange_unfold. unfold manualState. simpl.
  rewrite !selectAll_fold.
  generalize (list_to_set (id <$> artworks st) : gset Z). intros P.
  destruct earlier, later; simpl; f_equal;
    apply set_eq; intros z; destruct (decide (z ∈ P)); set_solver.
Qed.

(** The header check box shows checked exactly when the page has rows and
    the rows displayed as selected are all the rows of the page. *)
Theorem isAllSelected_iff (st : State) :
  isAllSelected st = true
  ↔ artworks st ≠ [] ∧ getSelectedArtworks st = artworks st.
Proof.
  unfold isAllSelected, getSelectedArtworks.
  rewrite andb_true_iff, filterFrom_all.
  destruct (artworks st) as [|x l]; simpl; [naive_solver|].
  split; intros [_ H]; split; done.
Qed.

(** ** Bulk mode on the page *)

(** Filtering by a bound on the global position keeps a prefix. *)
Lemma filterFrom_position {A : Type} (base target : Z) (l : list A) (k : nat) :
  filterFrom (λ _ i, base + Z.of_nat i + 1 <=? target) l k
  = take (Z.to_nat (target - base - Z.of_nat k)) l.
Proof.
  revert k. induction l as [|x l IH]; intros k; simpl.
  - by rewrite take_nil.
  - rewrite IH. destruct (Z.leb_spec (base + Z.of_nat k + 1) target) as [H|H].
    + replace (Z.to_nat (target - base - Z.of_nat k))
        with (S (Z.to_nat (target - base - Z.of_nat (S k)))) by lia.
      done.
    + replace (Z.to_nat (target - base - Z.of_nat k)) with 0%nat by lia.
      replace (Z.to_nat (target - base - Z.of_nat (S k))) with 0%nat by lia.
      by rewrite take_0.
Qed.

Lemma filterFrom_ext {A : Type} (p q : A → nat → bool) (l : list A) (k : nat) :
  (∀ a i, p a i = q a i) → filterFrom p l k = filterFrom q l k.
Proof.
  intros H. revert k. induction l as [|x l IH]; intros k; simpl; [done|].
  by rewrite H, IH.
Qed.

(** In bulk mode, on every state a run reaches, the rows displayed as
    selected are the first rows of the page, as many as the target leaves
    after the pages before: [target - (currentPage - 1) * ROWS_PER_PAGE] of
    them (none when that is not positive, all when the page has fewer). *)
Theorem getSelectedArtworks_bulk_prefix (evs : list Event) :
  selectionMode (run evs initialState) = custom →
  getSelectedArtworks (run evs initialState)
  = take
      (Z.to_nat (customSelectTarget (run evs initialState)
                 - paginatorFirst (run evs initialState)))
      (artworks (run evs initialState)).
Proof.
  intros Hm. pose proof (run_modeInvariant evs) as Hinv.
  set (st := run evs initialState) in *.
  unfold modeInvariant in Hinv. rewrite Hm in Hinv.
  destruct Hinv as (Hpos & Hs & Hd).
  unfold getSelectedArtworks.
  rewrite (filterFrom_ext _
             (λ _ i, paginatorFirst st + Z.of_nat i + 1
                     <=? customSelectTarget st)).
  - rewrite filterFrom_position. f_equal. lia.
  - intros a i. rewrite isArtworkSelected_implicit, Hm
      by (rewrite ?Hs, ?Hd; set_solver).
    simpl. by assert ((0 <? customSelectTarget st) = true) as -> by lia.
Qed.

Lemma getSelectedArtworks_bulk_prefix_witness :
  getSelectedArtworks
    (run [FetchSettle (Parsed (mkApiBody (rowsFrom 101 12) (Some 50)));
          CountInput "15"; CustomSubmit; PageChange 1;
          FetchSettle (Parsed (mkApiBody (rowsFrom 113 12) (Some 50)))]
       initialState)
  = rowsFrom 113 3.
Proof.
  apply (getSelectedArtworks_bulk_prefix
           [FetchSettle (Parsed (mkApiBody (rowsFrom 101 12) (Some 50)));
            CountInput "15"; CustomSubmit; PageChange 1;
            FetchSettle (Parsed (mkApiBody (rowsFrom 113 12) (Some 50)))]).
  reflexivity.
Defined.

(** ** The count in the header *)

(** The count is never negative; in bulk mode with a positive target it
    exceeds neither the target nor, when that is not negative, the number of
    records. *)
Theorem getTotalSelectedCount_bounds (st : State) :
  0 ≤ getTotalSelectedCount st
  ∧ (selectionMode st = custom → 0 < customSelectTarget st →
     getTotalSelectedCount st ≤ customSelectTarget st
     ∧ getTotalSelectedCount st ≤ Z.max 0 (totalRecords st)).
Proof.
  rewrite getTotalSelectedCount_unfold. split.
  - destruct (isCustom (selectionMode st) && (0 <? customSelectTarget st)); lia.
  - intros -> Hpos. simpl.
    assert ((0 <? customSelectTarget st) = true) as -> by lia. lia.
Qed.

(** Right after an accepted submission of the count [n] the header counts
    exactly [n] selected rows, and both the count line and the note
    [Selecting first n rows] are rendered. *)
Theorem handleCustomSelection_count (st : State) (n : Z) :
  JS.parseInt (customSelectCount st) = Some n →
  0 < n → n ≤ totalRecords st →
  getTotalSelectedCount (handleCustomSelection st).1 = n
  ∧ showsSelectedCount (handleCustomSelection st).1 = true
  ∧ showsCustomNote (handleCustomSelection st).1 = true.
Proof.
  intros Hn Hpos Hle. pose proof (handleCustomSelection_cases st) as Hc.
  rewrite Hn in Hc.
  assert ((0 <? n) && (n <=? totalRecords st) = true) as Hok.
  { apply andb_true_iff. lia. }
  rewrite Hok in Hc. rewrite Hc.
  unfold showsSelectedCount, showsCustomNote.
  rewrite getTotalSelectedCount_unfold.
  change (selectionMode (customState st n, [HideOverlay]).1) with custom.
  change (customSelectTarget (customState st n, [HideOverlay]).1) with n.
  change (totalRecords (customState st n, [HideOverlay]).1)
    with (totalRecords st).
  change (deselectedRowIds (customState st n, [HideOverlay]).1)
    with (∅ : gset Z).
  rewrite size_empty.
  assert ((0 <? n) = true) as -> by lia. cbn [isCustom andb].
  split; [lia|]. split; [apply Z.ltb_lt; lia|done].
Qed.

Lemma handleCustomSelection_count_witness :
  getTotalSelectedCount (handleCustomSelection (withInput "15" 50)).1 = 15
  ∧ showsSelectedCount (handleCustomSelection (withInput "15" 50)).1 = true
  ∧ showsCustomNote (handleCustomSelection (withInput "15" 50)).1 = true.
Proof.
  apply (handleCustomSelection_count (withInput "15" 50) 15);
    [reflexivity | reflexivity | discriminate].
Defined.

(** ** A manual change made in bulk mode *)

Lemma getSelectedArtworks_no_include (st : State) :
  selectionMode st = manual → selectedRowIds st = ∅ →
  getSelectedArtworks st = [] ∧ getTotalSelectedCount st = 0.
Proof.
  intros Hm Hs. split.
  - apply filterFrom_none. intros i a _.
    rewrite isArtworkSelected_manual, Hs by done.
    rewrite (bool_decide_eq_false_2 (id a ∈ ∅)) by set_solver.
    apply andb_false_r.
  - rewrite getTotalSelectedCount_unfold, Hm, Hs. cbn [isCustom andb].
    by rewrite size_empty.
Qed.

(** In bulk mode, on every state a run reaches, a selection change that only
    removes rows (it selects no row that was not displayed as selected)
    leaves the include set empty: the rows that were selected by position
    stop being selected, on this page and on every other, and the header
    counts 0. *)
Theorem onSelectionChange_bulk_drops (evs : list Event)
    (newSelection : list Artwork) :
  selectionMode (run evs initialState) = custom →
  (∀ i a, artworks (run evs initialState) !! i = Some a →
          someId newSelection a = true →
          isArtworkSelected (run evs initialState) a i = true) →
  let st' := (onSelectionChange (run evs initialState) newSelection).1 in
  selectedRowIds st' = ∅
  ∧ getSelectedArtworks st' = []
  ∧ getTotalSelectedCount st' = 0.
Proof.
  intros Hm Honly st'. pose proof (run_modeInvariant evs) as Hinv.
  set (st := run evs initialState) in *.
  unfold modeInvariant in Hinv. rewrite Hm in Hinv.
  destruct Hinv as (_ & Hs & _).
  assert (selectedRowIds st' = ∅) as Hs'.
  { unfold st'. rewrite onSelectionChange_unfold. simpl.
    apply (forEachFrom_keeps (λ sets : IdSets, sets.1 = ∅)); [done|].
    intros i a [s d] Hi Hempty. simpl in Hempty. subst s.
    change (0 + i)%nat with i. unfold selectionChangeRow.
    destruct (someId newSelection a) eqn:Hnow; simpl.
    - rewrite (Honly i a Hi Hnow). done.
    - destruct (isArtworkSelected st a i); simpl; set_solver. }
  split; [done|]. by apply getSelectedArtworks_no_include.
Qed.

Lemma onSelectionChange_bulk_drops_witness :
  let st' := (onSelectionChange
                (run [FetchSettle
                        (Parsed (mkApiBody (rowsFrom 101 12) (Some 50)));
                      CountInput "15"; CustomSubmit] initialState)
                (rowsFrom 102 11)).1 in
  selectedRowIds st' = ∅
  ∧ getSelectedArtworks st' = []
  ∧ getTotalSelectedCount st' = 0.
Proof.
  apply (onSelectionChange_bulk_drops
           [FetchSettle (Parsed (mkApiBody (rowsFrom 101 12) (Some 50)));
            CountInput "15"; CustomSubmit] (rowsFrom 102 11)).
  - reflexivity.
  - intros i a Hi _.
    do 12 (destruct i as [|i]; [inversion Hi; reflexivity|]).
    inversion Hi.
Defined.

(** ** Paging keeps the selection *)

Lemma handle_navigation_selection (st : State) (ev : Event) :
  isNavigation ev = true → selectionOf (handle st ev).1 = selectionOf st.
Proof.
  destruct ev as [page| |outcome|newSelection|checked|value|]; try done.
  intros _. unfold selectionOf. simpl handle.
  by destruct (fetchArtworks_settle_selection st outcome) as (-> & -> & -> & ->).
Qed.

(** Page changes, requests and their results, and typing in the overlay
    leave the mode, the target and both id sets as they were.  In manual
    mode a row is therefore displayed as selected after them exactly when it
    was before, on whatever page and at whatever index it shows up. *)
Theorem navigation_keeps_selection (evs : list Event) (st : State) :
  forallb isNavigation evs = true →
  selectionOf (run evs st) = selectionOf st
  ∧ (selectionMode st = manual →
     ∀ a i j,
       isArtworkSelected (run evs st) a i = isArtworkSelected st a j).
Proof.
  intros Hnav.
  assert (selectionOf (run evs st) = selectionOf st) as Hsame.
  { revert st. induction evs as [|ev evs IH]; intros st; [done|].
    simpl in Hnav. apply andb_true_iff in Hnav as [Hev Hrest].
    simpl. rewrite (IH Hrest). by apply handle_navigation_selection. }
  split; [done|]. intros Hm a i j.
  unfold selectionOf in Hsame. injection Hsame as Hm' _ Hs Hd.
  rewrite !isArtworkSelected_manual by congruence.
  by rewrite Hs, Hd.
Qed.

Lemma navigation_keeps_selection_witness :
  selectionOf
    (run [PageChange 1; FetchBegin;
          FetchSettle (Parsed (mkApiBody (rowsFrom 2 3) (Some 50)))]
       threeRows)
  = selectionOf threeRows
  ∧ (selectionMode threeRows = manual →
     ∀ a i j,
       isArtworkSelected
         (run [PageChange 1; FetchBegin;
               FetchSettle (Parsed (mkApiBody (rowsFrom 2 3) (Some 50)))]
            threeRows) a i
       = isArtworkSelected threeRows a j).
Proof.
  apply (navigation_keeps_selection
           [PageChange 1; FetchBegin;
            FetchSettle (Parsed (mkApiBody (rowsFrom 2 3) (Some 50)))]
           threeRows).
  reflexivity.
Defined.

(** ** A manual change made in manual mode *)

Lemma selectionChange_keeps_id (st : State) (newSelection : list Artwork)
    (y : Z) :
  (∀ i a, artworks st !! i = Some a → id a = y →
          someId newSelection a = isArtworkSelected st a i) →
  let st' := (onSelectionChange st newSelection).1 in
  (y ∈ selectedRowIds st' ↔ y ∈ selectedRowIds st)
  ∧ (y ∈ deselectedRowIds st' ↔ y ∈ deselectedRowIds st).
Proof.
  intros Hsame. rewrite onSelectionChange_unfold. simpl.
  apply (forEachFrom_keeps
           (λ sets : IdSets,
              (y ∈ sets.1 ↔ y ∈ selectedRowIds st)
              ∧ (y ∈ sets.2 ↔ y ∈ deselectedRowIds st))); [done|].
  intros i a s Hi [Hs Hd]. simpl.
  destruct (decide (id a = y)) as [Heq|Hne].
  - by rewrite selectionChangeRow_same by by apply Hsame.
  - destruct (selectionChangeRow_other st newSelection s a i y Hne) as [H1 H2].
    split; [by rewrite H1 | by rewrite H2].
Qed.

Lemma someId_same_id (newSelection : list Artwork) (a b : Artwork) :
  id a = id b → someId newSelection a = someId newSelection b.
Proof. unfold someId. by intros ->. Qed.

Lemma isArtworkSelected_manual_same_id (st : State) (a b : Artwork)
    (i j : nat) :
  selectionMode st = manual → id a = id b →
  isArtworkSelected st a i = isArtworkSelected st b j.
Proof.
  intros Hm Hid. rewrite !isArtworkSelected_manual by done. by rewrite Hid.
Qed.

(** In manual mode, after a selection change every row of the page is
    displayed as selected exactly when the new selection holds it: the table
    shows what was selected in it. *)
Theorem onSelectionChange_manual_display (st : State)
    (newSelection : list Artwork) (i : nat) (a : Artwork) :
  selectionMode st = manual →
  artworks st !! i = Some a →
  isArtworkSelected (onSelectionChange st newSelection).1 a i
  = someId newSelection a.
Proof.
  intros Hm Hi.
  set (st' := (onSelectionChange st newSelection).1).
  assert (selectionMode st' = manual) as Hm' by done.
  assert (∀ j b, artworks st !! j = Some b → id b = id a →
            someId newSelection b = someId newSelection a
            ∧ isArtworkSelected st b j = isArtworkSelected st a i) as Hrows.
  { intros j b _ Hid. split;
      [by apply someId_same_id | by apply isArtworkSelected_manual_same_id]. }
  destruct (someId newSelection a) eqn:Hnow,
           (isArtworkSelected st a i) eqn:Hwas.
  - (* still selected *)
    destruct (selectionChange_keeps_id st newSelection (id a)) as [Hs Hd].
    { intros j b Hj Hid. destruct (Hrows j b Hj Hid) as [-> ->]. done. }
    fold st' in Hs, Hd.
    rewrite isArtworkSelected_manual in Hwas |- * by done.
    rewrite <- Hwas. f_equal; [f_equal|]; apply bool_decide_ext; done.
  - (* newly selected *)
    assert (id a ∈ selectedRowIds st' ∧ id a ∉ deselectedRowIds st') as [Hs Hd].
    { unfold st'. rewrite onSelectionChange_unfold. simpl.
      apply (forEachFrom_establishes
               (λ sets : IdSets, id a ∈ sets.1 ∧ id a ∉ sets.2)
               _ _ _ _ i a Hi).
      - intros [s d]. unfold selectionChangeRow.
        change (0 + i)%nat with i. rewrite Hnow, Hwas. simpl. set_solver.
      - intros j b [s d] Hj HQ. change (0 + j)%nat with j.
        destruct (decide (id b = id a)) as [Hid|Hne].
        + destruct (Hrows j b Hj Hid) as [Hn Hw].
          unfold selectionChangeRow. rewrite Hn, Hw. simpl.
          rewrite Hid. set_solver.
        + destruct (selectionChangeRow_other st newSelection (s, d) b j
                      (id a) Hne) as [H1 H2].
          split; [by apply H1, HQ | rewrite H2; apply HQ]. }
    by apply isArtworkSelected_selected.
  - (* newly deselected *)
    apply isArtworkSelected_deselected.
    unfold st'. rewrite onSelectionChange_unfold. simpl.
    apply (forEachFrom_establishes
             (λ sets : IdSets, id a ∈ sets.2) _ _ _ _ i a Hi).
    + intros [s d]. unfold selectionChangeRow.
      change (0 + i)%nat with i. rewrite Hnow, Hwas. simpl. set_solver.
    + intros j b [s d] Hj HQ. change (0 + j)%nat with j.
      destruct (decide (id b = id a)) as [Hid|Hne].
      * destruct (Hrows j b Hj Hid) as [Hn Hw].
        unfold selectionChangeRow. rewrite Hn, Hw. simpl.
        rewrite Hid. set_solver.
      * destruct (selectionChangeRow_other st newSelection (s, d) b j
                    (id a) Hne) as [H1 H2].
        by apply H2.
  - (* still not selected *)
    destruct (selectionChange_keeps_id st newSelection (id a)) as [Hs Hd].
    { intros j b Hj Hid. destruct (Hrows j b Hj Hid) as [-> ->]. done. }
    fold st' in Hs, Hd.
    rewrite isArtworkSelected_manual in Hwas |- * by done.
    rewrite <- Hwas. f_equal; [f_equal|]; apply bool_decide_ext; done.
Qed.

Lemma onSelectionChange_manual_display_witness :
  isArtworkSelected (onSelectionChange threeRows [row 3; row 1]).1 (row 3) 2
  = someId [row 3; row 1] (row 3).
Proof.
  apply (onSelectionChange_manual_display threeRows [row 3; row 1] 2 (row 3));
    reflexivity.
Defined.

Lemma someId_true (newSelection : list Artwork) (a : Artwork) :
  someId newSelection a = true ↔ ∃ b, b ∈ newSelection ∧ id b = id a.
Proof.
  unfold someId. rewrite existsb_exists. split.
  - intros (b & Hb & Hid). exists b. split; [by apply list_elem_of_In|lia].
  - intros (b & Hb & Hid). exists b. split; [by apply list_elem_of_In|lia].
Qed.

Lemma someId_getSelectedArtworks (st : State) (i : nat) (a : Artwork) :
  selectionMode st = manual → artworks st !! i = Some a →
  someId (getSelectedArtworks st) a = isArtworkSelected st a i.
Proof.
  intros Hm Hi. destruct (isArtworkSelected st a i) eqn:Hsel.
  - apply someId_true. exists a. split; [|done].
    apply filterFrom_elem. by exists i.
  - apply not_true_is_false. intros (b & Hb & Hid)%someId_true.
    apply filterFrom_elem in Hb as (j & _ & Hj). simpl in Hj.
    rewrite (isArtworkSelected_manual_same_id st b a j i) in Hj by done.
    congruence.
Qed.

(** In manual mode, a selection change that carries the rows already
    displayed as selected changes nothing at all. *)
Theorem onSelectionChange_same_selection (st : State) :
  selectionMode st = manual → customSelectTarget st = 0 →
  onSelectionChange st (getSelectedArtworks st) = (st, []).
Proof.
  intros Hm Ht. rewrite onSelectionChange_unfold. f_equal.
  assert (forEachFrom (selectionChangeRow st (getSelectedArtworks st))
            (artworks st) 0 (selectedRowIds st, deselectedRowIds st)
          = (selectedRowIds st, deselectedRowIds st)) as ->.
  { apply (forEachFrom_keeps
             (λ sets : IdSets,
                sets = (selectedRowIds st, deselectedRowIds st))); [done|].
    intros i a s Hi ->. apply selectionChangeRow_same.
    by apply someId_getSelectedArtworks. }
  destruct st. simpl in *. by subst.
Qed.

Lemma onSelectionChange_same_selection_witness :
  onSelectionChange threeRows (getSelectedArtworks threeRows)
  = (threeRows, []).
Proof.
  apply (onSelectionChange_same_selection threeRows); reflexivity.
Defined.

(** ** Submitting twice *)

(** An accepted submission empties the input field, so pressing Submit again
    is rejected with the first alert and leaves the bulk selection as the
    first submission set it. *)
Theorem handleCustomSelection_twice (st : State) (n : Z) :
  JS.parseInt (customSelectCount st) = Some n →
  0 < n → n ≤ totalRecords st →
  handleCustomSelection (handleCustomSelection st).1
  = ((handleCustomSelection st).1, [Alert EnterValidPositive]).
Proof.
  intros Hn Hpos Hle. pose proof (handleCustomSelection_cases st) as Hc.
  rewrite Hn in Hc.
  assert ((0 <? n) && (n <=? totalRecords st) = true) as Hok.
  { apply andb_true_iff. lia. }
  rewrite Hok in Hc. by rewrite Hc.
Qed.

Lemma handleCustomSelection_twice_witness :
  handleCustomSelection (handleCustomSelection (withInput "15" 50)).1
  = ((handleCustomSelection (withInput "15" 50)).1,
     [Alert EnterValidPositive]).
Proof.
  apply (handleCustomSelection_twice (withInput "15" 50) 15);
    [reflexivity | reflexivity | discriminate].
Defined.

(** ** What the table holds *)

Lemma handle_artworks (st : State) (ev : Event) :
  artworks (handle st ev).1
  = match ev with
    | FetchSettle (Parsed body) => body_data body
    | _ => artworks st
    end.
Proof.
  destruct ev as [page| |[| |[rows [total|]]]|newSelection|checked|value|];
    try reflexivity.
  simpl handle. pose proof (handleCustomSelection_cases st) as Hc.
  destruct (JS.parseInt (customSelectCount st)) as [n|].
  - destruct ((0 <? n) && (n <=? totalRecords st)).
    + by rewrite Hc.
    + by destruct Hc as [msg ->].
  - by rewrite Hc.
Qed.

Lemma lastStoredBody_seen (evs : list Event) (body : ApiBody) :
  ∃ body', lastStoredBody evs (Some body) = Some body'.
Proof.
  revert body. induction evs as [|ev evs IH]; intros body; simpl; [eauto|].
  destruct ev as [page| |[| |body0]|newSelection|checked|value|]; apply IH.
Qed.

Lemma run_artworks (evs : list Event) (st : State) (seen : option ApiBody) :
  (∀ body, seen = Some body → artworks st = body_data body) →
  artworks (run evs st)
  = match lastStoredBody evs seen with
    | Some body => body_data body
    | None => artworks st
    end.
Proof.
  revert st seen. induction evs as [|ev evs IH]; intros st seen Hseen.
  - simpl. destruct seen as [body|]; [by apply Hseen | done].
  - change (run (ev :: evs) st) with (run evs (handle st ev).1).
    pose proof (handle_artworks st ev) as Hev.
    destruct ev as [page| |[| |body]|newSelection|checked|value|];
      simpl lastStoredBody;
      try (rewrite (IH _ seen); [by rewrite Hev | rewrite Hev; exact Hseen]).
    rewrite (IH _ (Some body)); [|intros b [= <-]; exact Hev].
    by destruct (lastStoredBody_seen evs body) as [body' ->].
Qed.

(** The rows in the table are those of the parsed body that settled last,
    whichever page is current by then and whichever page that body was
    requested for; before any body settled they are the rows the run started
    with. *)
Theorem artworks_last_response (evs : list Event) (st : State) :
  artworks (run evs st)
  = match lastStoredBody evs None with
    | Some body => body_data body
    | None => artworks st
    end.
Proof. apply run_artworks. intros body H. discriminate H. Qed.

(** ** The label under the table *)

(** The row at index [i] has the global position [showingFrom + i].  When
    the page starts below the number of records, the label counts up, covers
    at most [ROWS_PER_PAGE] entries and stops at the number of records;
    otherwise, as on the first render with no record known, it runs
    backwards ([Showing 1 to 0 of 0 entries]). *)
Theorem showing_label_range (st : State) :
  (∀ i, globalPosition st i = showingFrom st + Z.of_nat i)
  ∧ (paginatorFirst st < totalRecords st →
     showingFrom st ≤ showingTo st
     ∧ showingTo st - showingFrom st < ROWS_PER_PAGE
     ∧ showingTo st ≤ totalRecords st)
  ∧ (totalRecords st ≤ paginatorFirst st → showingTo st < showingFrom st).
Proof.
  unfold globalPosition, showingFrom, showingTo, paginatorFirst, ROWS_PER_PAGE.
  repeat split; intros; lia.
Qed.

(** ** What the selection handlers leave alone *)

(** The check boxes, the overlay's input and its Submit button never change
    the rows, the number of records, the current page or the loading flag,
    never send a request and never log an error. *)
Theorem selection_events_frame (st : State) (ev : Event) :
  isSelectionEvent ev = true →
  artworks (handle st ev).1 = artworks st
  ∧ totalRecords (handle st ev).1 = totalRecords st
  ∧ currentPage (handle st ev).1 = currentPage st
  ∧ loading (handle st ev).1 = loading st
  ∧ Forall (λ e, match e with
                 | Alert _ | HideOverlay => True
                 | FetchRequest _ _ | ConsoleError => False
                 end) (handle st ev).2.
Proof.
  destruct ev as [page| |outcome|newSelection|checked|value|]; try done;
    intros _; try (repeat split; by constructor).
  simpl handle. pose proof (handleCustomSelection_cases st) as Hc.
  destruct (JS.parseInt (customSelectCount st)) as [n|].
  - destruct ((0 <? n) && (n <=? totalRecords st)).
    + rewrite Hc. repeat split. by repeat constructor.
    + destruct Hc as [msg ->]. repeat split. by repeat constructor.
  - rewrite Hc. repeat split. by repeat constructor.
Qed.

Lemma selection_events_frame_witness :
  artworks (handle scenarioA_page1 (SelectAllChange false)).1
  = artworks scenarioA_page1
  ∧ totalRecords (handle scenarioA_page1 (SelectAllChange false)).1
    = totalRecords scenarioA_page1
  ∧ currentPage (handle scenarioA_page1 (SelectAllChange false)).1
    = currentPage scenarioA_page1
  ∧ loading (handle scenarioA_page1 (SelectAllChange false)).1
    = loading scenarioA_page1
  ∧ Forall (λ e, match e with
                 | Alert _ | HideOverlay => True
                 | FetchRequest _ _ | ConsoleError => False
                 end) (handle scenarioA_page1 (SelectAllChange false)).2.
Proof.
  apply (selection_events_frame scenarioA_page1 (SelectAllChange false)).
  reflexivity.
Defined.

(** ** Manual mode and the include set *)

Lemma run_disjoint (evs : list Event) :
  selectedRowIds (run evs initialState)
  ## deselectedRowIds (run evs initialState).
Proof.
  apply (run_preserves (λ st, selectedRowIds st ## deselectedRowIds st));
    [exact handle_disjoint | set_solver].
Qed.

(** In manual mode, on every state a run reaches, a row is displayed as
    selected exactly when its id is in the include set; the size of that
    set, which the header shows, is then the number of selected ids. *)
Theorem manual_selected_iff_included (evs : list Event) (a : Artwork)
    (i : nat) :
  selectionMode (run evs initialState) = manual →
  (isArtworkSelected (run evs initialState) a i = true
   ↔ id a ∈ selectedRowIds (run evs initialState))
  ∧ getTotalSelectedCount (run evs initialState)
    = Z.of_nat (size (selectedRowIds (run evs initialState))).
Proof.
  intros Hm. pose proof (run_disjoint evs) as Hdis.
  set (st := run evs initialState) in *. split.
  - rewrite isArtworkSelected_manual by done.
    rewrite andb_true_iff, negb_true_iff, bool_decide_eq_false,
      bool_decide_eq_true.
    set_solver.
  - by rewrite getTotalSelectedCount_unfold, Hm.
Qed.

Lemma manual_selected_iff_included_witness :
  (isArtworkSelected
     (run [FetchSettle (Parsed (mkApiBody (rowsFrom 1 3) (Some 3)));
           SelectAllChange true; SelectionChange [row 1; row 3]]
        initialState) (row 3) 7 = true
   ↔ id (row 3)
     ∈ selectedRowIds
         (run [FetchSettle (Parsed (mkApiBody (rowsFrom 1 3) (Some 3)));
               SelectAllChange true; SelectionChange [row 1; row 3]]
            initialState))
  ∧ getTotalSelectedCount
      (run [FetchSettle (Parsed (mkApiBody (rowsFrom 1 3) (Some 3)));
            SelectAllChange true; SelectionChange [row 1; row 3]]
         initialState)
    = Z.of_nat
        (size
           (selectedRowIds
              (run [FetchSettle (Parsed (mkApiBody (rowsFrom 1 3) (Some 3)));
                    SelectAllChange true; SelectionChange [row 1; row 3]]
                 initialState))).
Proof.
  apply (manual_selected_iff_included
           [FetchSettle (Parsed (mkApiBody (rowsFrom 1 3) (Some 3)));
            SelectAllChange true; SelectionChange [row 1; row 3]]
           (row 3) 7).
  reflexivity.
Defined.
